(** * Weather dashboard (app.py): a shallow embedding and its properties

    The development follows [app.py] function by function:
    - [format_unix_time]           (app.py, lines 38-43)
    - [create_forecast_dataframe]  (app.py, lines 45-69)
    - [get_weather_data]           (app.py, lines 16-36) and the
      [st.cache_data(ttl=600)] decorator in front of it (line 15)
    - the two uses of [str.capitalize] (lines 55 and 125).

    Python exceptions are values of [exn]; a computation that may raise
    has type [result A].  The library calls the program makes
    ([datetime], [pandas], [requests], [st.cache_data]) are modelled by
    the definitions of the modules [Py], [Pd], [Requests] and [St]. *)

From Stdlib Require Import ZArith QArith Qminmax String Ascii Lia Sorted.
From stdpp Require Import base option list sorting gmap strings.

Open Scope Z_scope.

(** ** Exceptions and fallible computations *)

Inductive exn : Type :=
  | KeyError (key : string)
  | ValueError
  | OverflowError
  | OutOfBoundsTimedelta
  | JSONDecodeError
  | AttributeError
  | IndexError.

Inductive result (A : Type) : Type :=
  | Ok (a : A)
  | Raise (e : exn).

Arguments Ok {A} a.
Arguments Raise {A} e.

#[global] Instance result_ret : MRet result := fun A a => Ok a.
#[global] Instance result_bind : MBind result := fun A B f m =>
  match m with
  | Ok a => f a
  | Raise e => Raise e
  end.

(** [mapM] over [result]: the first exception, in list order, wins. *)
Fixpoint traverse {A B : Type} (f : A -> result B) (l : list A) : result (list B) :=
  match l with
  | [] => Ok []
  | a :: l' => b ← f a; bs ← traverse f l'; Ok (b :: bs)
  end.

(** ** The parts of [datetime] and [str] the program uses *)

Module Py.

(** A [datetime] is represented by the number of seconds between
    1970-01-01T00:00:00 and its wall-clock reading, a [date] by the
    number of days since 1970-01-01 (that is [date.toordinal() - 719163]);
    equality and order of dates are those of the day numbers. *)
Definition datetime := Z.
Definition date := Z.

(** 0001-01-01T00:00:00 and 9999-12-31T23:59:59: [datetime.min] and
    [datetime.max] at second resolution. *)
Definition MINSECONDS : Z := -62135596800.
Definition MAXSECONDS : Z := 253402300799.

Definition representable (wall : Z) : bool :=
  (MINSECONDS <=? wall) && (wall <=? MAXSECONDS).

(** [datetime.utcfromtimestamp(ts)], [ts] an integer: the year must lie
    in 1..9999.  (Far beyond these years the platform refuses the
    timestamp before the year is looked at, with [OverflowError] or
    [OSError]; the model raises [ValueError] there too.) *)
Definition utcfromtimestamp (ts : Z) : result datetime :=
  if representable ts then Ok ts else Raise ValueError.

(** [datetime.fromtimestamp(ts)] with no [tz] argument: the naive local
    time of the host.  [tz ts] is the UTC offset, in seconds, that the
    host's time zone has at the instant [ts].  (The model accepts every
    local wall time of the years 1..9999.  The interpreter also looks one
    day back, to detect a repeated hour, and so refuses the first day of
    year 1 as well; far beyond these years the platform raises
    [OverflowError] or [OSError].) *)
Definition fromtimestamp (tz : Z -> Z) (ts : Z) : result datetime :=
  let wall := ts + tz ts in
  if representable wall then Ok wall else Raise ValueError.

(** [dt.date()] *)
Definition date_of (dt : datetime) : date := dt / 86400.

(** [dt + td] for a [timedelta] of [td] whole seconds. *)
Definition add_seconds (dt : datetime) (td : Z) : result datetime :=
  if representable (dt + td) then Ok (dt + td) else Raise OverflowError.

Definition digit (d : Z) : ascii := ascii_of_nat (48 + Z.to_nat d).

(** ['%02d'] for a number below 100 *)
Definition two_digits (n : Z) : string :=
  String (digit (n / 10)) (String (digit (n mod 10)) EmptyString).

Definition hour (dt : datetime) : Z := (dt mod 86400) / 3600.
Definition minute (dt : datetime) : Z := ((dt mod 86400) mod 3600) / 60.
Definition second (dt : datetime) : Z := (dt mod 86400) mod 60.

(** [dt.strftime('%H:%M:%S')] *)
Definition strftime_HMS (dt : datetime) : string :=
  two_digits (hour dt) +:+ ":" +:+ two_digits (minute dt) +:+ ":" +:+ two_digits (second dt).

(** [str.upper] and [str.lower] on one character; bytes outside the
    ASCII letters are left as they are (the model is exact on ASCII
    text, which is what the provider sends without a [lang] parameter). *)
Definition upper_char (c : ascii) : ascii :=
  let n := nat_of_ascii c in
  if ((97 <=? n) && (n <=? 122))%nat then ascii_of_nat (n - 32) else c.

Definition lower_char (c : ascii) : ascii :=
  let n := nat_of_ascii c in
  if ((65 <=? n) && (n <=? 90))%nat then ascii_of_nat (n + 32) else c.

Fixpoint lower (s : string) : string :=
  match s with
  | EmptyString => EmptyString
  | String c s' => String (lower_char c) (lower s')
  end.

(** [str.capitalize()] *)
Definition capitalize (s : string) : string :=
  match s with
  | EmptyString => EmptyString
  | String c s' => String (upper_char c) (lower s')
  end.

End Py.

(** ** The parts of [pandas] the program uses *)

Module Pd.

(** [pd.Timedelta(seconds=s)], [s] an integer: the value is kept as a
    signed 64-bit count of nanoseconds.  (A pandas that keeps the value in
    a coarser unit accepts larger offsets.) *)
Definition MAX_TIMEDELTA_SECONDS : Z := 9223372036.

Definition Timedelta (seconds : Z) : result Z :=
  if (- MAX_TIMEDELTA_SECONDS <=? seconds) && (seconds <=? MAX_TIMEDELTA_SECONDS)
  then Ok seconds else Raise OutOfBoundsTimedelta.

(** A frame: its column labels and its rows, in index order. *)
Record DataFrame (R : Type) : Type := mkDataFrame {
  columns : list string;
  records : list R
}.
Arguments mkDataFrame {R} columns records.
Arguments columns {R} d.
Arguments records {R} d.

(** [pd.DataFrame(rows)] for a list of dicts that all have the keys
    [keys]: the columns are taken from the dicts, so a frame built from
    the empty list has no column at all. *)
Definition DataFrame_of_dicts {R : Type} (keys : list string) (rows : list R) : DataFrame R :=
  match rows with
  | [] => mkDataFrame [] []
  | _ :: _ => mkDataFrame keys rows
  end.

(** Insertion of a group key into the ascending list of the distinct
    keys seen so far. *)
Fixpoint insert_key (k : Z) (ks : list Z) : list Z :=
  match ks with
  | [] => [k]
  | k' :: ks' =>
      if k <? k' then k :: ks
      else if k =? k' then ks
      else k' :: insert_key k ks'
  end.

Definition sorted_unique (ks : list Z) : list Z := foldr insert_key [] ks.

(** [df.groupby(label)] with the default [sort=True]: [KeyError] when
    the frame has no such column; otherwise one group per distinct key,
    the keys ascending, the rows of a group in frame order. *)
Definition groupby {R : Type} (label : string) (key : R -> Z) (df : DataFrame R)
  : result (list (Z * list R)) :=
  if decide (label ∈ columns df)
  then Ok ((fun k => (k, filter (fun r => key r = k) (records df)))
             <$> sorted_unique (key <$> records df))
  else Raise (KeyError label).

(** The ['max'] and ['min'] aggregations of a group with first value [x]
    and further values [xs]. *)
Definition series_max (x : Q) (xs : list Q) : Q := foldl Qmax x xs.
Definition series_min (x : Q) (xs : list Q) : Q := foldl Qmin x xs.

(** [df.head(n)] *)
Definition head {R : Type} (n : nat) (df : DataFrame R) : DataFrame R :=
  mkDataFrame (columns df) (take n (records df)).

End Pd.

(** ** [format_unix_time] (app.py, lines 38-43) *)

Definition format_unix_time (timestamp timezone_offset : Z) : result string :=
  utc_dt ← Py.utcfromtimestamp timestamp;
  td ← Pd.Timedelta timezone_offset;
  local_dt ← Py.add_seconds utc_dt td;
  Ok (Py.strftime_HMS local_dt).

(** ** [create_forecast_dataframe] (app.py, lines 45-69) *)

(** One element of [forecast_data['list']]: the fields the function reads,
    [entry['dt']], [entry['main']['temp']] and
    [entry['weather'][0]['description']].  Temperatures are only compared,
    never computed with, so they are kept as exact rationals. *)
Record entry : Type := mkEntry {
  dt : Z;
  temp : Q;
  description : string
}.

(** A row of [df] (the dict appended at lines 51-56). *)
Record frame_row : Type := mkFrameRow {
  df_Time : Py.datetime;
  df_Date : Py.date;
  df_Temperature : Q;
  df_Weather : string
}.

(** A row of [daily_forecast] after [reset_index()]. *)
Record daily_row : Type := mkDailyRow {
  Date : Py.date;
  Max_Temp : Q;
  Min_Temp : Q;
  Weather : string
}.

Definition temperature_column (unit_symbol : string) : string :=
  "Temperature (" +:+ unit_symbol +:+ ")".

(** Body of the loop at lines 50-56. *)
Definition forecast_record (tz : Z -> Z) (e : entry) : result frame_row :=
  time ← Py.fromtimestamp tz (dt e);
  day ← Py.fromtimestamp tz (dt e);
  Ok (mkFrameRow time (Py.date_of day) (temp e) (Py.capitalize (description e))).

(** Lines 49-58: [df_list], then [df = pd.DataFrame(df_list)]. *)
Definition forecast_frame (tz : Z -> Z) (forecast_list : list entry) (unit_symbol : string)
  : result (Pd.DataFrame frame_row) :=
  df_list ← traverse (forecast_record tz) forecast_list;
  Ok (Pd.DataFrame_of_dicts ["Time"; "Date"; temperature_column unit_symbol; "Weather"] df_list).

(** The three named aggregations of lines 61-65 on one group;
    [x.iloc[0]] raises [IndexError] on an empty group. *)
Definition agg_group (g : Z * list frame_row) : result daily_row :=
  match g.2 with
  | [] => Raise IndexError
  | r :: rs =>
      Ok (mkDailyRow g.1
            (Pd.series_max (df_Temperature r) (df_Temperature <$> rs))
            (Pd.series_min (df_Temperature r) (df_Temperature <$> rs))
            (df_Weather r))
  end.

Definition daily_columns : list string := ["Date"; "Max_Temp"; "Min_Temp"; "Weather"].

(** [tz] is the time zone of the host the program runs on (it enters
    through [datetime.fromtimestamp]); [forecast_list] is
    [forecast_data['list']]. *)
Definition create_forecast_dataframe (tz : Z -> Z) (forecast_list : list entry)
    (unit_symbol : string) : result (Pd.DataFrame daily_row) :=
  df ← forecast_frame tz forecast_list unit_symbol;
  groups ← Pd.groupby "Date" df_Date df;
  rows ← traverse agg_group groups;
  let daily_forecast := Pd.mkDataFrame daily_columns rows in
  Ok (Pd.head 5 daily_forecast).

(** ** The parts of [requests] the program uses *)

Module Requests.

(** A decoded JSON document; an object is a Python [dict]. *)
#[warnings="-register-all"] Inductive json : Type :=
  | JNull
  | JBool (b : bool)
  | JNum (q : Q)
  | JStr (s : string)
  | JArr (items : list json)
  | JObj (fields : gmap string json).

Record Response : Type := mkResponse {
  status_code : Z;
  (** the decoded body, [None] when the body is not JSON *)
  content : option json
}.

(** [response.json()] *)
Definition json_of (r : Response) : result json :=
  match content r with
  | Some j => Ok j
  | None => Raise JSONDecodeError
  end.

(** [d.get(key, fallback)]: only a [dict] has the method. *)
Definition dict_get (d : json) (key : string) (fallback : json) : result json :=
  match d with
  | JObj fields => Ok (default fallback (fields !! key))
  | _ => Raise AttributeError
  end.

Record request : Type := mkRequest {
  url : string;
  params : gmap string string
}.

(** The network and the provider behind it: what comes back for a
    request, given the requests issued before it.  [Raise] stands for a
    request that gets no response at all. *)
Definition server : Type := list request -> request -> result Response.

(** Programs that issue requests: the log of requests issued so far is
    threaded through and survives an exception. *)
Definition IO (A : Type) : Type := list request -> result A * list request.

Definition lift {A : Type} (r : result A) : IO A := fun log => (r, log).

(** [requests.get(url, params=params)] *)
Definition get (srv : server) (url : string) (params : gmap string string) : IO Response :=
  fun log => (srv log (mkRequest url params), log ++ [mkRequest url params]).

End Requests.

#[global] Instance IO_ret : MRet Requests.IO := fun A a log => (Ok a, log).
#[global] Instance IO_bind : MBind Requests.IO := fun A B f m log =>
  match m log with
  | (Ok a, log') => f a log'
  | (Raise e, log') => (Raise e, log')
  end.

(** ** [get_weather_data] (app.py, lines 16-36), without its decorator *)

Definition API_KEY : string := "5a53980184dd4b1e993193b19f7d2d18".
Definition CURRENT_URL : string := "http://api.openweathermap.org/data/2.5/weather".
Definition FORECAST_URL : string := "http://api.openweathermap.org/data/2.5/forecast".

Definition request_params (city unit : string) : gmap string string :=
  {[ "q" := city; "appid" := API_KEY; "units" := unit ]}.

Definition get_weather_data (srv : Requests.server) (city unit : string)
  : Requests.IO (gmap string Requests.json) :=
  let params := request_params city unit in
  current_response ← Requests.get srv CURRENT_URL params;
  forecast_response ← Requests.get srv FORECAST_URL params;
  if decide (Requests.status_code current_response ≠ 200) then
    body ← Requests.lift (Requests.json_of current_response);
    message ← Requests.lift
      (Requests.dict_get body "message" (Requests.JStr "Error fetching current weather data."));
    mret {[ "error" := message ]}
  else if decide (Requests.status_code forecast_response ≠ 200) then
    body ← Requests.lift (Requests.json_of forecast_response);
    message ← Requests.lift
      (Requests.dict_get body "message" (Requests.JStr "Error fetching forecast data."));
    mret {[ "error" := message ]}
  else
    current ← Requests.lift (Requests.json_of current_response);
    forecast ← Requests.lift (Requests.json_of forecast_response);
    mret {[ "current" := current; "forecast" := forecast ]}.

(** ** [st.cache_data(ttl=...)] (app.py, line 15) *)

Module St.

(** The store of a decorated function holds, under the arguments of a
    call, the value the function returned and the clock reading when it
    was stored.  A call at clock reading [now] (seconds): an entry
    younger than [ttl] is returned without running the function;
    otherwise the function runs and what it returns is stored.  An
    exception is not stored. *)
Definition cache_data {K V : Type} `{Countable K} (ttl : Z) (f : K -> Requests.IO V)
    (now : Z) (k : K) (st : gmap K (Z * V) * list Requests.request)
  : result V * (gmap K (Z * V) * list Requests.request) :=
  let run :=
    match f k st.2 with
    | (Ok v, log') => (Ok v, (<[k := (now, v)]> st.1, log'))
    | (Raise e, log') => (Raise e, (delete k st.1, log'))
    end in
  match st.1 !! k with
  | Some (stored, v) => if now <? stored + ttl then (Ok v, st) else run
  | None => run
  end.

End St.

(** The decorated function, as the rest of the program calls it. *)
Definition cached_get_weather_data (srv : Requests.server) (now : Z) (city unit : string)
    (st : gmap (string * string) (Z * gmap string Requests.json) * list Requests.request)
  : result (gmap string Requests.json)
    * (gmap (string * string) (Z * gmap string Requests.json) * list Requests.request) :=
  St.cache_data 600 (fun k => get_weather_data srv k.1 k.2) now (city, unit) st.

(** ** The current-conditions block of the page script (lines 119-128) *)

(** The fields of [data['current']] that the block reads. *)
Record snapshot : Type := mkSnapshot {
  current_temp : Q;
  current_description : string;
  current_icon : string
}.

(** Line 125. *)
Definition weather_desc (current : snapshot) : string :=
  Py.capitalize (current_description current).

(** Line 128: the text handed to [st.markdown]. *)
Definition condition_markdown (current : snapshot) : string :=
  "**Condition:** " +:+ weather_desc current.

(** ** [get_weather_icon_url] (app.py, lines 71-73) *)

Definition get_weather_icon_url (icon_code : string) : string :=
  "http://openweathermap.org/img/wn/" +:+ icon_code +:+ "@2x.png".

(** ** The inputs of the page script and its fetch (app.py, lines 80-101) *)

Module PyStr.

(** The ASCII characters [str.isspace] accepts: tab, line feed, vertical
    tab, form feed, carriage return, the four separators 28-31 and the
    space.  (Whitespace outside ASCII is not covered by the model.) *)
Definition is_space (c : ascii) : bool :=
  let n := nat_of_ascii c in
  (((9 <=? n) && (n <=? 13)) || ((28 <=? n) && (n <=? 32)))%nat.

(** [s.lstrip()] *)
Fixpoint lstrip (s : string) : string :=
  match s with
  | EmptyString => EmptyString
  | String c s' => if is_space c then lstrip s' else s
  end.

(** [s.rstrip()] *)
Fixpoint rstrip (s : string) : string :=
  match s with
  | EmptyString => EmptyString
  | String c s' =>
      match rstrip s' with
      | EmptyString => if is_space c then EmptyString else String c EmptyString
      | String c' s'' => String c (String c' s'')
      end
  end.

(** [s.strip()] *)
Definition strip (s : string) : string := rstrip (lstrip s).

(** Truth value of a [str] *)
Definition truthy (s : string) : bool :=
  match s with
  | EmptyString => false
  | String _ _ => true
  end.

End PyStr.

(** What [st.radio] returns at lines 84-88: one of its two options. *)
Inductive unit_choice : Type := Celsius | Fahrenheit.

(** Lines 90-95. *)
Definition unit_param (unit_option : unit_choice) : string :=
  match unit_option with
  | Celsius => "metric"
  | Fahrenheit => "imperial"
  end.

Definition unit_symbol (unit_option : unit_choice) : string :=
  match unit_option with
  | Celsius => "°C"
  | Fahrenheit => "°F"
  end.

(** Line 81: the text of the input box, stripped. *)
Definition city_name (text_input : string) : string := PyStr.strip text_input.

(** Lines 97-101: [button] is what [st.button] returned in this run of the
    script, [now] the clock reading of the run.  [None] when the script
    does not reach the call of [get_weather_data]. *)
Definition page_fetch (srv : Requests.server) (now : Z) (text_input : string)
    (unit_option : unit_choice) (button : bool)
    (st : gmap (string * string) (Z * gmap string Requests.json) * list Requests.request)
  : option (result (gmap string Requests.json))
    * (gmap (string * string) (Z * gmap string Requests.json) * list Requests.request) :=
  if button && PyStr.truthy (city_name text_input) then
    let call := cached_get_weather_data srv now (city_name text_input)
                  (unit_param unit_option) st in
    (Some call.1, call.2)
  else (None, st).

(** * Vocabulary of the statements *)

(** The calendar date [forecast_record] gives a sample: that of the
    wall clock of the host. *)
Definition local_date (tz : Z -> Z) (e : entry) : Py.date :=
  Py.date_of (dt e + tz (dt e)).

(** The calendar date of a sample on the UTC basis of its timestamp. *)
Definition utc_date (e : entry) : Py.date := Py.date_of (dt e).

(** The row [forecast_record] builds when it does not raise. *)
Definition frame_row_of (tz : Z -> Z) (e : entry) : frame_row :=
  mkFrameRow (dt e + tz (dt e)) (local_date tz e) (temp e) (Py.capitalize (description e)).

(** The samples of the date [d], in input order. *)
Definition samples_of_date (tz : Z -> Z) (d : Py.date) (l : list entry) : list entry :=
  filter (fun e => local_date tz e = d) l.

(** The row of the daily table for the date [k], from the samples of that
    date: [e] the first of them, [es] the others, in input order. *)
Definition daily_row_of (k : Py.date) (e : entry) (es : list entry) : daily_row :=
  mkDailyRow k
    (Pd.series_max (temp e) (temp <$> es))
    (Pd.series_min (temp e) (temp <$> es))
    (Py.capitalize (description e)).

(** A host whose local time is UTC, and one five and a half hours ahead. *)
Definition host_utc : Z -> Z := fun _ => 0.
Definition host_ist : Z -> Z := fun _ => 19800.

(** Eight samples, three hours apart, from midnight of day [d]; the first
    is described by [first], the others by [others]. *)
Definition day_of_samples (d : Z) (temps : list Z) (first others : string) : list entry :=
  imap (fun i t => mkEntry (d * 86400 + Z.of_nat i * 10800) (inject_Z t)
                     (if decide (i = 0%nat) then first else others)) temps.

(** The two-day fixture of the specification. *)
Definition two_days : list entry :=
  day_of_samples 0 [10; 12; 15; 14; 13; 11; 9; 8] "clear sky" "few clouds"
  ++ day_of_samples 1 [16; 18; 20; 19; 17; 15; 14; 13] "light rain" "overcast clouds".

(** Seven days, one sample each, out of order. *)
Definition seven_days : list entry :=
  (fun d => mkEntry (d * 86400 + 43200) (inject_Z d) "mist") <$> [6; 2; 4; 0; 1; 5; 3].

(** The two requests of a call of [get_weather_data]. *)
Definition current_request (city unit : string) : Requests.request :=
  Requests.mkRequest CURRENT_URL (request_params city unit).
Definition forecast_request (city unit : string) : Requests.request :=
  Requests.mkRequest FORECAST_URL (request_params city unit).

(** A provider that knows no place: every request gets a 404 with the
    provider's JSON error body. *)
Definition srv_not_found : Requests.server := fun _ _ =>
  Ok (Requests.mkResponse 404
        (Some (Requests.JObj {[ "cod" := Requests.JStr "404";
                                "message" := Requests.JStr "city not found" ]}))).

(** A gateway in front of the provider that answers 502 with a page that
    is not JSON. *)
Definition srv_bad_gateway : Requests.server := fun _ _ =>
  Ok (Requests.mkResponse 502 None).

(** A provider whose answers change from request to request: the body
    carries the number of requests served before. *)
Definition srv_counting : Requests.server := fun log _ =>
  Ok (Requests.mkResponse 200
        (Some (Requests.JObj {[ "dt" := Requests.JNum (inject_Z (Z.of_nat (length log))) ]}))).

(** The state before the first call: nothing stored, nothing requested. *)
Definition fresh : gmap (string * string) (Z * gmap string Requests.json)
                   * list Requests.request := (∅, []).

(** A run of calls of the decorated function, each with its clock
    reading and its arguments; the results are dropped. *)
Fixpoint run_calls (srv : Requests.server) (calls : list (Z * (string * string)))
    (st : gmap (string * string) (Z * gmap string Requests.json) * list Requests.request)
  : gmap (string * string) (Z * gmap string Requests.json) * list Requests.request :=
  match calls with
  | [] => st
  | (now, (city, unit)) :: rest =>
      run_calls srv rest (cached_get_weather_data srv now city unit st).2
  end.

(** The shape [HH:MM:SS]: eight characters, decimal digits around two
    colons. *)
Definition is_digit (c : ascii) : bool :=
  ((48 <=? nat_of_ascii c) && (nat_of_ascii c <=? 57))%nat.

Definition is_colon (c : ascii) : bool := bool_decide (c = ":"%char).

Definition hms_shape (s : string) : bool :=
  match s with
  | String h1 (String h0 (String c1 (String m1 (String m0 (String c2
      (String s1 (String s0 EmptyString))))))) =>
      is_digit h1 && is_digit h0 && is_colon c1 && is_digit m1 && is_digit m0
      && is_colon c2 && is_digit s1 && is_digit s0
  | _ => false
  end.

(** The two forms of a dict [get_weather_data] returns, as the page
    tells them apart. *)
Definition error_dict (d : gmap string Requests.json) : Prop :=
  is_Some (d !! "error") /\ d !! "current" = None /\ d !! "forecast" = None.

Definition weather_dict (d : gmap string Requests.json) : Prop :=
  d !! "error" = None /\ is_Some (d !! "current") /\ is_Some (d !! "forecast").

(** A string of whitespace only (the empty string included). *)
Fixpoint blank (s : string) : bool :=
  match s with
  | EmptyString => true
  | String c s' => PyStr.is_space c && blank s'
  end.

(** First and last character of a string. *)
Definition first_char (s : string) : option ascii :=
  match s with
  | EmptyString => None
  | String c _ => Some c
  end.

Fixpoint last_char (s : string) : option ascii :=
  match s with
  | EmptyString => None
  | String c EmptyString => Some c
  | String _ s' => last_char s'
  end.

(** What holds of a store all of whose entries come from the calls [done]. *)
Definition entries_from (done : list (Z * (string * string)))
    (st : gmap (string * string) (Z * gmap string Requests.json) * list Requests.request)
  : Prop :=
  forall k stored v,
    st.1 !! k = Some (stored, v) ->
    (stored, k) ∈ done /\ (error_dict v \/ weather_dict v).

(** * Properties *)

(** ** Fallible computations *)

Lemma bind_Ok {A B : Type} (m : result A) (f : A -> result B) (b : B) :
  (m ≫= f) = Ok b <-> exists a, m = Ok a /\ f a = Ok b.
Proof.
  destruct m as [a|e]; simpl; split.
  - intros Hf. exists a. auto.
  - intros (a' & Ha & Hf). congruence.
  - discriminate.
  - intros (a' & Ha & _). discriminate.
Qed.

Lemma traverse_Ok {A B : Type} (f : A -> result B) (l : list A) (bs : list B) :
  traverse f l = Ok bs <-> Forall2 (fun a b => f a = Ok b) l bs.
Proof.
  revert bs. induction l as [|a l IH]; intros bs; simpl.
  - split.
    + intros [= <-]. constructor.
    + intros H. inversion H. reflexivity.
  - rewrite bind_Ok. split.
    + intros (b & Hb & Hrest). apply bind_Ok in Hrest as (bs' & Hbs' & [= <-]).
      constructor; [exact Hb | apply IH, Hbs'].
    + intros H. inversion H as [|? b ? bs' Hb Hbs']; subst.
      exists b. split; [exact Hb|]. apply bind_Ok. exists bs'.
      split; [apply IH, Hbs' | reflexivity].
Qed.

(** ** The time formatter *)

Section format_unix_time_facts.

Lemma representable_range (wall : Z) :
  Py.representable wall = true <-> Py.MINSECONDS <= wall <= Py.MAXSECONDS.
Proof. unfold Py.representable. rewrite andb_true_iff, !Z.leb_le. tauto. Qed.

Lemma Timedelta_zero : Pd.Timedelta 0 = Ok 0.
Proof. reflexivity. Qed.

(** What a successful call computed: all three library calls went
    through, and the text is that of the shifted instant. *)
Lemma format_unix_time_Ok (t off : Z) (s : string) :
  format_unix_time t off = Ok s <->
  Py.representable t = true /\ Pd.Timedelta off = Ok off /\
  Py.representable (t + off) = true /\ s = Py.strftime_HMS (t + off).
Proof.
  unfold format_unix_time, Py.utcfromtimestamp, Pd.Timedelta, Py.add_seconds.
  destruct (Py.representable t); simpl;
    [|split; [discriminate | intros (? & _); discriminate]].
  destruct (_ && _); simpl;
    [|split; [discriminate | intros (_ & ? & _); discriminate]].
  destruct (Py.representable (t + off)); simpl;
    [|split; [discriminate | intros (_ & _ & ? & _); discriminate]].
  split.
  - intros [= <-]. auto.
  - intros (_ & _ & _ & ->). reflexivity.
Qed.

End format_unix_time_facts.

(** C9: [format_unix_time] applied to timestamp 0 with offset 0 returns
    the string "00:00:00". *)
Theorem format_unix_time_epoch : format_unix_time 0 0 = Ok "00:00:00".
Proof. reflexivity. Qed.

(** C8, as stated, fails: the timestamp 253402300800 is the first second
    of the year 10000, which [datetime.utcfromtimestamp] refuses, so
    [format_unix_time 253402300800 (-1)] raises, while the shifted
    timestamp 253402300799 with offset 0 is formatted. *)
Lemma format_unix_time_shift_counterexample :
  format_unix_time 253402300800 (-1) = Raise ValueError /\
  format_unix_time (253402300800 + -1) 0 = Ok "23:59:59" /\
  format_unix_time 253402300800 (-1) <> format_unix_time (253402300800 + -1) 0.
Proof. repeat split; try reflexivity. discriminate. Qed.

(** C8, amended: whenever [format_unix_time t offset] returns a string,
    [format_unix_time (t + offset) 0] returns the same string. *)
Theorem format_unix_time_shift (t offset : Z) (s : string) :
  format_unix_time t offset = Ok s ->
  format_unix_time (t + offset) 0 = Ok s.
Proof.
  rewrite !format_unix_time_Ok. intros (_ & _ & Hsum & ->).
  rewrite Z.add_0_r. auto using Timedelta_zero.
Qed.

Lemma format_unix_time_shift_witness :
  format_unix_time 1700000000 19800 = Ok "03:43:20" /\
  format_unix_time (1700000000 + 19800) 0 = Ok "03:43:20".
Proof.
  split; [reflexivity|].
  apply (format_unix_time_shift 1700000000 19800 "03:43:20"). reflexivity.
Defined.

(** ** Grouping keys *)

Section sorted_unique_facts.

Lemma elem_of_insert_key (x k : Z) (ks : list Z) :
  x ∈ Pd.insert_key k ks <-> x = k \/ x ∈ ks.
Proof.
  induction ks as [|k' ks IH]; simpl.
  - rewrite list_elem_of_singleton, elem_of_nil. tauto.
  - destruct (Z.ltb_spec k k') as [Hlt|Hge].
    + rewrite elem_of_cons. tauto.
    + destruct (Z.eqb_spec k k') as [->|Hne].
      * rewrite elem_of_cons. tauto.
      * rewrite !elem_of_cons, IH. tauto.
Qed.

Lemma insert_key_sorted (k : Z) (ks : list Z) :
  StronglySorted Z.lt ks -> StronglySorted Z.lt (Pd.insert_key k ks).
Proof.
  induction 1 as [|k' ks Hks IH Hall]; simpl.
  - repeat constructor.
  - destruct (Z.ltb_spec k k') as [Hlt|Hge].
    + constructor; [constructor; assumption|].
      constructor; [exact Hlt|].
      eapply Forall_impl; [exact Hall|]. intros y Hy. simpl in Hy. lia.
    + destruct (Z.eqb_spec k k') as [->|Hne].
      * constructor; assumption.
      * constructor; [exact IH|].
        apply Forall_forall. intros y Hy.
        apply elem_of_insert_key in Hy as [->|Hy]; [lia|].
        rewrite Forall_forall in Hall. apply Hall, Hy.
Qed.

Lemma sorted_unique_sorted (ks : list Z) : StronglySorted Z.lt (Pd.sorted_unique ks).
Proof.
  induction ks as [|k ks IH]; simpl; [constructor|].
  apply insert_key_sorted, IH.
Qed.

Lemma elem_of_sorted_unique (x : Z) (ks : list Z) : x ∈ Pd.sorted_unique ks <-> x ∈ ks.
Proof.
  induction ks as [|k ks IH]; simpl; [reflexivity|].
  rewrite elem_of_insert_key, elem_of_cons, IH. reflexivity.
Qed.

Lemma StronglySorted_take (n : nat) (ks : list Z) :
  StronglySorted Z.lt ks -> StronglySorted Z.lt (take n ks).
Proof.
  intros H. rewrite <- (take_drop n ks) in H.
  eapply StronglySorted_app_1_l, H.
Qed.

Lemma StronglySorted_lt_lookup (ks : list Z) (i j : nat) (a b : Z) :
  StronglySorted Z.lt ks -> (i < j)%nat -> ks !! i = Some a -> ks !! j = Some b -> a < b.
Proof.
  intros H. revert i j. induction H as [|k ks Hks IH Hall]; intros i j Hij Hi Hj.
  - discriminate.
  - destruct j as [|j]; [lia|]. simpl in Hj. destruct i as [|i]; simpl in Hi.
    + injection Hi as <-. rewrite Forall_forall in Hall.
      apply Hall. eapply list_elem_of_lookup_2, Hj.
    + eapply (IH i j); [lia | exact Hi | exact Hj].
Qed.

Lemma StronglySorted_lt_NoDup (ks : list Z) : StronglySorted Z.lt ks -> NoDup ks.
Proof.
  induction 1 as [|k ks Hks IH Hall]; constructor; [|exact IH].
  intros Hin. rewrite Forall_forall in Hall. specialize (Hall k Hin). lia.
Qed.

End sorted_unique_facts.

(** ** The frame built from the samples *)

Section frame_facts.

Variable tz : Z -> Z.

Lemma forecast_record_Ok (e : entry) (r : frame_row) :
  forecast_record tz e = Ok r <->
  Py.representable (dt e + tz (dt e)) = true /\ r = frame_row_of tz e.
Proof.
  unfold forecast_record, Py.fromtimestamp, frame_row_of, local_date.
  destruct (Py.representable _); simpl.
  - split; [intros [= <-]; auto | intros (_ & ->); reflexivity].
  - split; [discriminate | intros (? & _); discriminate].
Qed.

Lemma traverse_forecast_record (l : list entry) (df_list : list frame_row) :
  traverse (forecast_record tz) l = Ok df_list <->
  Forall (fun e => Py.representable (dt e + tz (dt e)) = true) l /\
  df_list = frame_row_of tz <$> l.
Proof.
  rewrite traverse_Ok. revert df_list.
  induction l as [|e l IH]; intros df_list; simpl.
  - split.
    + intros H. inversion H. auto.
    + intros (_ & ->). constructor.
  - split.
    + intros H. inversion H as [|? r ? rs Hr Hrs]; subst.
      apply forecast_record_Ok in Hr as (Hrep & ->).
      apply IH in Hrs as (Hall & ->). auto.
    + intros (Hall & ->). inversion Hall as [|? ? Hrep Hall']; subst.
      constructor; [apply forecast_record_Ok; auto | apply IH; auto].
Qed.

Lemma forecast_frame_Ok (l : list entry) (sym : string) (df : Pd.DataFrame frame_row) :
  forecast_frame tz l sym = Ok df ->
  Forall (fun e => Py.representable (dt e + tz (dt e)) = true) l /\
  Pd.records df = frame_row_of tz <$> l.
Proof.
  unfold forecast_frame. intros H.
  apply bind_Ok in H as (df_list & Hlist & [= <-]).
  apply traverse_forecast_record in Hlist as (Hrep & ->).
  split; [exact Hrep|]. destruct l; reflexivity.
Qed.

Lemma filter_frame_rows (k : Z) (l : list entry) :
  filter (fun r => df_Date r = k) (frame_row_of tz <$> l)
  = frame_row_of tz <$> filter (fun e => local_date tz e = k) l.
Proof.
  induction l as [|e l IH]; [reflexivity|].
  rewrite fmap_cons, !filter_cons. simpl.
  destruct (decide (local_date tz e = k)); rewrite IH; reflexivity.
Qed.

End frame_facts.

(** ** The daily table *)

Section daily_table_facts.

Variable tz : Z -> Z.

Lemma agg_group_Ok (k : Z) (rs : list frame_row) (r : daily_row) :
  agg_group (k, rs) = Ok r <->
  exists r0 rs', rs = r0 :: rs' /\
    r = mkDailyRow k
          (Pd.series_max (df_Temperature r0) (df_Temperature <$> rs'))
          (Pd.series_min (df_Temperature r0) (df_Temperature <$> rs'))
          (df_Weather r0).
Proof.
  unfold agg_group. simpl. destruct rs as [|r0 rs'].
  - split; [discriminate | intros (? & ? & ? & _); discriminate].
  - split.
    + intros [= <-]. eauto.
    + intros (? & ? & [= <- <-] & ->). reflexivity.
Qed.

Lemma agg_group_of_samples (k : Z) (l : list entry) (r : daily_row) :
  agg_group (k, filter (fun x => df_Date x = k) (frame_row_of tz <$> l)) = Ok r <->
  exists e es, samples_of_date tz k l = e :: es /\ r = daily_row_of k e es.
Proof.
  rewrite agg_group_Ok, filter_frame_rows. unfold samples_of_date.
  destruct (filter _ l) as [|e es]; simpl.
  - split; intros (? & ? & ? & _); discriminate.
  - split.
    + intros (? & ? & [= <- <-] & ->). exists e, es. split; [reflexivity|].
      unfold daily_row_of. simpl. rewrite <- list_fmap_compose. reflexivity.
    + intros (? & ? & [= <- <-] & ->). eexists _, _. split; [reflexivity|].
      unfold daily_row_of. simpl. rewrite <- list_fmap_compose. reflexivity.
Qed.

Lemma groupby_Date_of_dicts (sym : string) (r : frame_row) (rs : list frame_row) :
  Pd.groupby "Date" df_Date
    (Pd.DataFrame_of_dicts ["Time"; "Date"; temperature_column sym; "Weather"] (r :: rs))
  = Ok ((fun k => (k, filter (fun x => df_Date x = k) (r :: rs)))
          <$> Pd.sorted_unique (df_Date <$> r :: rs)).
Proof.
  unfold Pd.groupby, Pd.DataFrame_of_dicts. cbn [Pd.columns Pd.records].
  destruct (decide _) as [_|Hno]; [reflexivity|].
  exfalso. apply Hno. set_solver.
Qed.

Lemma Forall2_keys (P : Z -> daily_row -> Prop) (keys : list Z) (rows : list daily_row) :
  (forall k r, P k r -> Date r = k) -> Forall2 P keys rows -> Date <$> rows = keys.
Proof.
  intros HP. induction 1 as [|k r keys rows Hkr _ IH]; [reflexivity|].
  rewrite fmap_cons, IH, (HP k r Hkr). reflexivity.
Qed.

(** What a returned table is made of. *)
Lemma create_forecast_dataframe_Ok (l : list entry) (sym : string)
    (out : Pd.DataFrame daily_row) :
  create_forecast_dataframe tz l sym = Ok out ->
  l <> [] /\
  Forall (fun e => Py.representable (dt e + tz (dt e)) = true) l /\
  exists rows,
    out = Pd.mkDataFrame daily_columns (take 5 rows) /\
    Date <$> rows = Pd.sorted_unique (local_date tz <$> l) /\
    forall r, r ∈ rows ->
      exists e es, samples_of_date tz (Date r) l = e :: es /\
                   r = daily_row_of (Date r) e es.
Proof.
  unfold create_forecast_dataframe, forecast_frame.
  intros H. apply bind_Ok in H as (df & Hdf & H).
  apply bind_Ok in Hdf as (df_list & Hlist & [= <-]).
  apply traverse_forecast_record in Hlist as (Hrep & ->).
  apply bind_Ok in H as (groups & Hgroups & H).
  apply bind_Ok in H as (rows & Hrows & [= <-]).
  destruct l as [|e0 l0]; [discriminate|].
  split; [discriminate|]. split; [exact Hrep|].
  rewrite fmap_cons, groupby_Date_of_dicts, <- fmap_cons in Hgroups.
  set (l := e0 :: l0) in *.
  injection Hgroups as <-.
  apply traverse_Ok, Forall2_fmap_l in Hrows.
  assert (Hrows' : Forall2 (fun k r => exists e es,
             samples_of_date tz k l = e :: es /\
             r = daily_row_of k e es)
           (Pd.sorted_unique (local_date tz <$> l)) rows).
  { rewrite <- list_fmap_compose in Hrows.
    eapply Forall2_impl; [exact Hrows|]. intros k r Hkr.
    apply (agg_group_of_samples k l r), Hkr. }
  exists rows. split; [reflexivity|]. split.
  - eapply Forall2_keys, Hrows'. intros k r (e & es & _ & ->). reflexivity.
  - intros r Hr. apply list_elem_of_lookup_1 in Hr as (i & Hi).
    destruct (Forall2_lookup_r _ _ _ _ _ Hrows' Hi) as (k & _ & e & es & Hf & ->).
    exists e, es. auto.
Qed.

(** The function returns a table for every non-empty list of samples
    whose timestamps the host can represent. *)
Lemma create_forecast_dataframe_returns (l : list entry) (sym : string) :
  l <> [] ->
  Forall (fun e => Py.representable (dt e + tz (dt e)) = true) l ->
  exists out, create_forecast_dataframe tz l sym = Ok out.
Proof.
  intros Hne Hrep.
  assert (Hrows : exists rows,
    traverse agg_group
      ((fun k => (k, filter (fun r => df_Date r = k) (frame_row_of tz <$> l)))
         <$> Pd.sorted_unique (df_Date <$> (frame_row_of tz <$> l))) = Ok rows).
  { rewrite <- list_fmap_compose.
    assert (Hkeys : Forall (fun k => k ∈ local_date tz <$> l)
              (Pd.sorted_unique (df_Date ∘ frame_row_of tz <$> l))).
    { apply Forall_forall. intros k Hk. exact (proj1 (elem_of_sorted_unique _ _) Hk). }
    induction Hkeys as [|k ks Hk _ IH].
    - exists []. reflexivity.
    - destruct IH as (rows & Hrows).
      apply list_elem_of_fmap in Hk as (e & -> & He).
      assert (Hin : e ∈ filter (fun e' => local_date tz e' = local_date tz e) l)
        by (apply list_elem_of_filter; auto).
      destruct (filter _ l) as [|e1 es] eqn:Hf; [inversion Hin|].
      exists (daily_row_of (local_date tz e) e1 es :: rows).
      apply traverse_Ok. constructor; [|apply traverse_Ok, Hrows].
      apply agg_group_of_samples. eauto. }
  destruct Hrows as (rows & Hrows).
  exists (Pd.head 5 (Pd.mkDataFrame daily_columns rows)).
  unfold create_forecast_dataframe, forecast_frame.
  apply bind_Ok.
  exists (Pd.DataFrame_of_dicts
            ["Time"; "Date"; temperature_column sym; "Weather"] (frame_row_of tz <$> l)).
  split.
  { apply bind_Ok. exists (frame_row_of tz <$> l).
    split; [apply traverse_forecast_record; auto | reflexivity]. }
  apply bind_Ok. eexists. split; [|apply bind_Ok; exists rows; split; [exact Hrows | reflexivity]].
  destruct l as [|e0 l0]; [contradiction|].
  rewrite fmap_cons. apply groupby_Date_of_dicts.
Qed.

End daily_table_facts.

(** ** Maximum and minimum of a group *)

Section series_facts.

Lemma series_min_le_max_from (a b : Q) (xs : list Q) :
  (a <= b)%Q -> (foldl Qmin a xs <= foldl Qmax b xs)%Q.
Proof.
  revert a b. induction xs as [|x xs IH]; intros a b Hab; simpl; [exact Hab|].
  apply IH. eapply Qle_trans; [apply Q.le_min_r | apply Q.le_max_r].
Qed.

Lemma series_min_le_max (x : Q) (xs : list Q) :
  (Pd.series_min x xs <= Pd.series_max x xs)%Q.
Proof. apply series_min_le_max_from, Qle_refl. Qed.

End series_facts.

(** ** The claims on the daily table *)

(** C1: whatever the samples, a table returned by
    [create_forecast_dataframe] has at most 5 rows, and the dates of its
    rows are strictly ascending, hence without duplicates. *)
Theorem daily_table_at_most_five_rows_ascending
    (tz : Z -> Z) (l : list entry) (sym : string) (out : Pd.DataFrame daily_row) :
  create_forecast_dataframe tz l sym = Ok out ->
  (length (Pd.records out) <= 5)%nat /\
  (forall (i j : nat) (ri rj : daily_row),
      (i < j)%nat -> Pd.records out !! i = Some ri -> Pd.records out !! j = Some rj ->
      Date ri < Date rj) /\
  NoDup (Date <$> Pd.records out).
Proof.
  intros H. apply create_forecast_dataframe_Ok in H as (_ & _ & rows & -> & Hkeys & _).
  cbn [Pd.records].
  assert (Hsorted : StronglySorted Z.lt (Date <$> take 5 rows)).
  { rewrite fmap_take, Hkeys. apply StronglySorted_take, sorted_unique_sorted. }
  split; [rewrite length_take; lia|]. split.
  - intros i j ri rj Hij Hi Hj.
    eapply (StronglySorted_lt_lookup _ i j); [exact Hsorted | exact Hij | |];
      rewrite list_lookup_fmap; [rewrite Hi | rewrite Hj]; reflexivity.
  - apply StronglySorted_lt_NoDup, Hsorted.
Qed.

Lemma daily_table_at_most_five_rows_ascending_witness :
  exists out,
    create_forecast_dataframe host_utc seven_days "°C" = Ok out /\
    length (Pd.records out) = 5%nat /\
    (forall (i j : nat) (ri rj : daily_row),
        (i < j)%nat -> Pd.records out !! i = Some ri -> Pd.records out !! j = Some rj ->
        Date ri < Date rj).
Proof.
  exists (Pd.mkDataFrame daily_columns
            ((fun d => mkDailyRow d (inject_Z d) (inject_Z d) "Mist") <$> [0; 1; 2; 3; 4])).
  split; [reflexivity|]. split; [reflexivity|].
  apply (daily_table_at_most_five_rows_ascending host_utc seven_days "°C"). reflexivity.
Defined.

(** C2 on the code: for the empty list of samples the frame built at line
    58 has no column, and [df.groupby('Date')] raises [KeyError]; no
    table is returned. *)
Theorem create_forecast_dataframe_empty (tz : Z -> Z) (sym : string) :
  create_forecast_dataframe tz [] sym = Raise (KeyError "Date").
Proof. reflexivity. Qed.

(** C3, as stated, fails: the label of the row is not the description of
    the first sample of the date but its capitalised form. *)
Lemma daily_weather_verbatim_counterexample :
  let e := mkEntry 0 10 "clear sky" in
  let r := mkDailyRow 0 10 10 "Clear sky" in
  create_forecast_dataframe host_utc [e] "°C" = Ok (Pd.mkDataFrame daily_columns [r]) /\
  samples_of_date host_utc (Date r) [e] = [e] /\
  Weather r <> description e.
Proof. repeat split; try reflexivity. discriminate. Qed.

(** C3, amended: for every row of the returned table, the samples of the
    row's date form a non-empty group, and the row's weather label is the
    capitalised ([str.capitalize]) description of the first sample of
    that group in input order. *)
Theorem daily_weather_of_first_sample
    (tz : Z -> Z) (l : list entry) (sym : string) (out : Pd.DataFrame daily_row)
    (r : daily_row) :
  create_forecast_dataframe tz l sym = Ok out ->
  r ∈ Pd.records out ->
  exists (e : entry) (es : list entry),
    samples_of_date tz (Date r) l = e :: es /\
    Weather r = Py.capitalize (description e).
Proof.
  intros H Hr. apply create_forecast_dataframe_Ok in H as (_ & _ & rows & -> & _ & Hrows).
  cbn [Pd.records] in Hr. apply elem_of_take in Hr as (i & Hi & _).
  apply list_elem_of_lookup_2, Hrows in Hi as (e & es & Hgroup & Hrow).
  exists e, es. split; [exact Hgroup|]. rewrite Hrow. reflexivity.
Qed.

Lemma daily_weather_of_first_sample_witness :
  exists (e : entry) (es : list entry),
    samples_of_date host_utc 1 two_days = e :: es /\
    "Light rain" = Py.capitalize (description e).
Proof.
  apply (daily_weather_of_first_sample host_utc two_days "°C"
           (Pd.mkDataFrame daily_columns
              [mkDailyRow 0 15 8 "Clear sky"; mkDailyRow 1 20 13 "Light rain"])
           (mkDailyRow 1 20 13 "Light rain")).
  - reflexivity.
  - cbn [Pd.records]. set_solver.
Defined.

(** C4, as stated, fails: the date is that of the host's local time, not
    that of the UTC basis of the timestamp.  On a host five and a half
    hours ahead of UTC, the samples of 1970-01-01T00:00Z and
    1970-01-01T20:00Z, one UTC date, fall on two dates and into two rows. *)
Lemma grouping_date_utc_counterexample :
  let e1 := mkEntry 0 10 "mist" in
  let e2 := mkEntry 72000 12 "haze" in
  utc_date e1 = utc_date e2 /\
  forecast_frame host_ist [e1; e2] "°C"
    = Ok (Pd.mkDataFrame ["Time"; "Date"; "Temperature (°C)"; "Weather"]
            [mkFrameRow 19800 0 10 "Mist"; mkFrameRow 91800 1 12 "Haze"]) /\
  df_Date (mkFrameRow 91800 1 12 "Haze") <> utc_date e2 /\
  create_forecast_dataframe host_ist [e1; e2] "°C"
    = Ok (Pd.mkDataFrame daily_columns [mkDailyRow 0 10 10 "Mist"; mkDailyRow 1 12 12 "Haze"]).
Proof. repeat split; try reflexivity. discriminate. Qed.

(** C4, amended: for every forecast sample, the calendar date used for
    grouping is the date of the timestamp shifted by the UTC offset of the
    host's own time zone at that instant (what [datetime.fromtimestamp]
    without [tz] gives); no offset supplied by the provider enters; and
    where the host's offset is zero it is the date on the UTC basis of the
    timestamp. *)
Theorem grouping_date_is_host_local
    (tz : Z -> Z) (l : list entry) (sym : string) (df : Pd.DataFrame frame_row) :
  forecast_frame tz l sym = Ok df ->
  Forall2 (fun e x => df_Date x = Py.date_of (dt e + tz (dt e))) l (Pd.records df) /\
  ((forall e, e ∈ l -> tz (dt e) = 0) ->
   Forall2 (fun e x => df_Date x = utc_date e) l (Pd.records df)).
Proof.
  intros H. apply forecast_frame_Ok in H as (_ & ->). split.
  - apply Forall2_fmap_r, Forall_Forall2_diag, Forall_forall. reflexivity.
  - intros Hutc. apply Forall2_fmap_r, Forall_Forall2_diag, Forall_forall.
    intros e He. unfold frame_row_of, local_date, utc_date. simpl.
    rewrite (Hutc e He), Z.add_0_r. reflexivity.
Qed.

Lemma grouping_date_is_host_local_witness :
  Forall2 (fun e x => df_Date x = Py.date_of (dt e + host_ist (dt e)))
    [mkEntry 0 10 "mist"; mkEntry 72000 12 "haze"]
    [mkFrameRow 19800 0 10 "Mist"; mkFrameRow 91800 1 12 "Haze"].
Proof.
  apply (grouping_date_is_host_local host_ist
           [mkEntry 0 10 "mist"; mkEntry 72000 12 "haze"] "°C"
           (Pd.mkDataFrame ["Time"; "Date"; "Temperature (°C)"; "Weather"]
              [mkFrameRow 19800 0 10 "Mist"; mkFrameRow 91800 1 12 "Haze"])).
  reflexivity.
Defined.

(** C7: in every row of the returned table [Max_Temp >= Min_Temp], and
    when the group of the row's date holds exactly one sample, both are
    that sample's temperature. *)
Theorem daily_max_ge_min
    (tz : Z -> Z) (l : list entry) (sym : string) (out : Pd.DataFrame daily_row)
    (r : daily_row) :
  create_forecast_dataframe tz l sym = Ok out ->
  r ∈ Pd.records out ->
  (Min_Temp r <= Max_Temp r)%Q /\
  (forall e : entry,
      samples_of_date tz (Date r) l = [e] ->
      Max_Temp r = temp e /\ Min_Temp r = temp e).
Proof.
  intros H Hr. apply create_forecast_dataframe_Ok in H as (_ & _ & rows & -> & _ & Hrows).
  cbn [Pd.records] in Hr. apply elem_of_take in Hr as (i & Hi & _).
  apply list_elem_of_lookup_2, Hrows in Hi as (e & es & Hgroup & Hrow).
  split.
  - rewrite Hrow. apply series_min_le_max.
  - intros e' Hone. rewrite Hone in Hgroup. injection Hgroup as <- <-.
    rewrite Hrow. split; reflexivity.
Qed.

Lemma daily_max_ge_min_witness :
  let e := mkEntry (2 * 86400 + 43200) 2 "mist" in
  let r := mkDailyRow 2 2 2 "Mist" in
  samples_of_date host_utc (Date r) seven_days = [e] /\
  (Min_Temp r <= Max_Temp r)%Q /\ Max_Temp r = temp e /\ Min_Temp r = temp e.
Proof.
  intros e r.
  destruct (daily_max_ge_min host_utc seven_days "°C"
              (Pd.mkDataFrame daily_columns
                 ((fun d => mkDailyRow d (inject_Z d) (inject_Z d) "Mist") <$> [0; 1; 2; 3; 4]))
              r) as [Hle Hone].
  - reflexivity.
  - cbn [Pd.records]. set_solver.
  - split; [reflexivity|]. split; [exact Hle|]. apply Hone. reflexivity.
Defined.

(** ** Capitalisation of the weather labels *)

(** C10: the weather label of every forecast sample in the frame, and so
    of every row of the daily table, is the sample's description passed
    through [str.capitalize] (first character uppercased, the others
    lowercased), which is not the description as the provider sent it;
    the current-conditions description goes through the same function
    before it is displayed. *)
Theorem weather_labels_are_capitalized :
  (forall (tz : Z -> Z) (l : list entry) (sym : string) (df : Pd.DataFrame frame_row),
      forecast_frame tz l sym = Ok df ->
      Forall2 (fun e x => df_Weather x = Py.capitalize (description e)) l (Pd.records df)) /\
  (forall (tz : Z -> Z) (l : list entry) (sym : string) (out : Pd.DataFrame daily_row)
          (r : daily_row),
      create_forecast_dataframe tz l sym = Ok out ->
      r ∈ Pd.records out ->
      exists e : entry,
        e ∈ l /\ local_date tz e = Date r /\ Weather r = Py.capitalize (description e)) /\
  (forall (c : ascii) (s : string),
      Py.capitalize (String c s) = String (Py.upper_char c) (Py.lower s)) /\
  Py.capitalize "light RAIN" = "Light rain" /\
  Py.capitalize "light RAIN" <> "light RAIN" /\
  (forall current : snapshot,
      weather_desc current = Py.capitalize (current_description current) /\
      condition_markdown current
        = "**Condition:** " +:+ Py.capitalize (current_description current)).
Proof.
  split; [|split; [|split; [|split; [|split]]]].
  - intros tz l sym df H. apply forecast_frame_Ok in H as (_ & ->).
    apply Forall2_fmap_r, Forall_Forall2_diag, Forall_forall. reflexivity.
  - intros tz l sym out r H Hr.
    apply create_forecast_dataframe_Ok in H as (_ & _ & rows & -> & _ & Hrows).
    cbn [Pd.records] in Hr. apply elem_of_take in Hr as (i & Hi & _).
    apply list_elem_of_lookup_2, Hrows in Hi as (e & es & Hgroup & Hrow).
    assert (He : e ∈ samples_of_date tz (Date r) l) by (rewrite Hgroup; left).
    apply list_elem_of_filter in He as (Hdate & He).
    exists e. split; [exact He|]. split; [exact Hdate|]. rewrite Hrow. reflexivity.
  - reflexivity.
  - reflexivity.
  - discriminate.
  - intros current. split; reflexivity.
Qed.

Lemma weather_labels_are_capitalized_witness :
  (exists e : entry,
      e ∈ two_days /\ local_date host_utc e = 1 /\
      "Light rain" = Py.capitalize (description e)) /\
  Forall2 (fun e x => df_Weather x = Py.capitalize (description e))
    [mkEntry 0 10 "mist"; mkEntry 72000 12 "haze"]
    [mkFrameRow 0 0 10 "Mist"; mkFrameRow 72000 0 12 "Haze"].
Proof.
  destruct weather_labels_are_capitalized as (Hframe & Htable & _).
  split.
  - apply (Htable host_utc two_days "°C"
             (Pd.mkDataFrame daily_columns
                [mkDailyRow 0 15 8 "Clear sky"; mkDailyRow 1 20 13 "Light rain"])
             (mkDailyRow 1 20 13 "Light rain")).
    + reflexivity.
    + cbn [Pd.records]. set_solver.
  - apply (Hframe host_utc [mkEntry 0 10 "mist"; mkEntry 72000 12 "haze"] "°C"
             (Pd.mkDataFrame ["Time"; "Date"; "Temperature (°C)"; "Weather"]
                [mkFrameRow 0 0 10 "Mist"; mkFrameRow 72000 0 12 "Haze"])).
    reflexivity.
Defined.

(** ** The weather client *)

Section get_weather_data_facts.

Import Requests.

Variable srv : server.
Variables city unit : string.

(** The two responses of a call, and what the call returns from them. *)
Lemma get_weather_data_responses (log : list request) (cur fc : Response) :
  srv log (current_request city unit) = Ok cur ->
  srv (log ++ [current_request city unit]) (forecast_request city unit) = Ok fc ->
  get_weather_data srv city unit log =
    ((if decide (status_code cur ≠ 200) then
        body ← json_of cur;
        message ← dict_get body "message" (JStr "Error fetching current weather data.");
        Ok {[ "error" := message ]}
      else if decide (status_code fc ≠ 200) then
        body ← json_of fc;
        message ← dict_get body "message" (JStr "Error fetching forecast data.");
        Ok {[ "error" := message ]}
      else
        current ← json_of cur;
        forecast ← json_of fc;
        Ok {[ "current" := current; "forecast" := forecast ]}),
     log ++ [current_request city unit; forecast_request city unit]).
Proof.
  intros Hcur Hfc. unfold current_request, forecast_request in Hcur, Hfc.
  unfold get_weather_data, mbind, IO_bind, Requests.get, current_request, forecast_request.
  rewrite Hcur, Hfc, <- app_assoc. simpl.
  destruct (decide (status_code cur ≠ 200)) as [_|_];
    [|destruct (decide (status_code fc ≠ 200)) as [_|_]].
  - unfold lift. destruct (json_of cur) as [body|e]; [|reflexivity]. simpl.
    destruct (dict_get body _ _); reflexivity.
  - unfold lift. destruct (json_of fc) as [body|e]; [|reflexivity]. simpl.
    destruct (dict_get body _ _); reflexivity.
  - unfold lift. destruct (json_of cur) as [current|e]; [|reflexivity]. simpl.
    destruct (json_of fc); reflexivity.
Qed.

(** A call issues at most the two requests, and keeps the log before it. *)
Lemma get_weather_data_log (log : list request) :
  exists reqs, (get_weather_data srv city unit log).2 = log ++ reqs /\ (length reqs <= 2)%nat.
Proof.
  destruct (srv log (current_request city unit)) as [cur|e] eqn:Hcur.
  - destruct (srv (log ++ [current_request city unit]) (forecast_request city unit))
      as [fc|e] eqn:Hfc.
    + rewrite (get_weather_data_responses log cur fc Hcur Hfc).
      eexists. split; [reflexivity | simpl; lia].
    + exists [current_request city unit; forecast_request city unit].
      split; [|simpl; lia].
      unfold current_request, forecast_request in *.
      unfold get_weather_data, mbind, IO_bind, Requests.get.
      rewrite Hcur, Hfc, <- app_assoc. reflexivity.
  - exists [current_request city unit]. split; [|simpl; lia].
    unfold current_request in *.
    unfold get_weather_data, mbind, IO_bind, Requests.get.
    rewrite Hcur. reflexivity.
Qed.

End get_weather_data_facts.

(** C5 on the code: for a response with a status other than 200 whose
    body is not JSON, the error branch of line 29 raises in
    [response.json()] before its fallback message is reached, and the
    function returns no error value at all. *)
Theorem get_weather_data_bad_gateway :
  srv_bad_gateway [] (current_request "London" "metric")
    = Ok (Requests.mkResponse 502 None) /\
  (get_weather_data srv_bad_gateway "London" "metric" []).1 = Raise JSONDecodeError /\
  (forall result_dict : gmap string Requests.json,
      (get_weather_data srv_bad_gateway "London" "metric" []).1 <> Ok result_dict).
Proof. repeat split; try reflexivity. intros d. discriminate. Qed.

(** On the error bodies the provider sends: in a call whose two requests
    both get a response, if the current-weather response has a status
    other than 200 and a JSON-object body, the function returns the
    one-key result [{'error': m}], [m] being the [message] field of that
    body or, when absent, 'Error fetching current weather data.', whatever
    the forecast response is; if the current-weather status is 200 and the
    forecast response has a status other than 200 and a JSON-object body,
    it returns [{'error': m}] from the forecast body in the same way
    (fallback 'Error fetching forecast data.').  In both cases the result
    has neither a ['current'] nor a ['forecast'] key. *)
Theorem get_weather_data_error
    (srv : Requests.server) (city unit : string) (log : list Requests.request)
    (cur fc : Requests.Response) :
  srv log (current_request city unit) = Ok cur ->
  srv (log ++ [current_request city unit])
      (forecast_request city unit) = Ok fc ->
  (Requests.status_code cur ≠ 200 ->
   forall fields : gmap string Requests.json,
     Requests.content cur = Some (Requests.JObj fields) ->
     exists d : gmap string Requests.json,
       (get_weather_data srv city unit log).1 = Ok d /\
       d = {[ "error" := default (Requests.JStr "Error fetching current weather data.")
                           (fields !! "message") ]} /\
       d !! "current" = None /\ d !! "forecast" = None) /\
  (Requests.status_code cur = 200 -> Requests.status_code fc ≠ 200 ->
   forall fields : gmap string Requests.json,
     Requests.content fc = Some (Requests.JObj fields) ->
     exists d : gmap string Requests.json,
       (get_weather_data srv city unit log).1 = Ok d /\
       d = {[ "error" := default (Requests.JStr "Error fetching forecast data.")
                           (fields !! "message") ]} /\
       d !! "current" = None /\ d !! "forecast" = None).
Proof.
  intros Hcur Hfc. rewrite (get_weather_data_responses srv city unit log cur fc Hcur Hfc).
  cbn [fst]. split.
  - intros Hstatus fields Hbody.
    destruct (decide (Requests.status_code cur ≠ 200)) as [_|Hno]; [|contradiction].
    unfold Requests.json_of. rewrite Hbody. simpl.
    eexists. split; [reflexivity|]. split; [reflexivity|].
    split; apply lookup_singleton_ne; discriminate.
  - intros Hok Hstatus fields Hbody.
    destruct (decide (Requests.status_code cur ≠ 200)) as [Hno|_]; [contradiction|].
    destruct (decide (Requests.status_code fc ≠ 200)) as [_|Hno]; [|contradiction].
    unfold Requests.json_of. rewrite Hbody. simpl.
    eexists. split; [reflexivity|]. split; [reflexivity|].
    split; apply lookup_singleton_ne; discriminate.
Qed.

Lemma get_weather_data_error_witness :
  exists d : gmap string Requests.json,
    (get_weather_data srv_not_found "InvalidPlaceXYZ123" "metric" []).1 = Ok d /\
    d = {[ "error" := Requests.JStr "city not found" ]} /\
    d !! "current" = None /\ d !! "forecast" = None.
Proof.
  pose proof (get_weather_data_error srv_not_found "InvalidPlaceXYZ123" "metric" []
                (Requests.mkResponse 404
                   (Some (Requests.JObj {[ "cod" := Requests.JStr "404";
                                           "message" := Requests.JStr "city not found" ]})))
                (Requests.mkResponse 404
                   (Some (Requests.JObj {[ "cod" := Requests.JStr "404";
                                           "message" := Requests.JStr "city not found" ]})))
                eq_refl eq_refl) as [Hcurrent _].
  apply (Hcurrent ltac:(discriminate) _ eq_refl).
Defined.

(** ** The cache in front of the weather client *)

Section cache_data_facts.

Context {K V : Type} `{Countable K}.
Variable ttl : Z.
Hypothesis ttl_pos : 0 < ttl.
Variable f : K -> Requests.IO V.

Lemma cache_data_hit (now stored : Z) (k : K) (v : V)
    (st : gmap K (Z * V) * list Requests.request) :
  st.1 !! k = Some (stored, v) -> now < stored + ttl ->
  St.cache_data ttl f now k st = (Ok v, st).
Proof.
  intros Hentry Hyoung. unfold St.cache_data. rewrite Hentry.
  destruct (Z.ltb_spec now (stored + ttl)); [reflexivity | lia].
Qed.

(** After a call that returned [v], the store holds [v] under the
    arguments of the call, stored at most [ttl] before the call; either
    nothing ran, or the function ran once and [v] was stored at the time
    of the call. *)
Lemma cache_data_Ok (now : Z) (k : K) (v : V)
    (st st1 : gmap K (Z * V) * list Requests.request) :
  St.cache_data ttl f now k st = (Ok v, st1) ->
  exists stored : Z,
    st1.1 !! k = Some (stored, v) /\ now < stored + ttl /\
    (st1 = st \/ (stored = now /\ st1.2 = (f k st.2).2)).
Proof.
  unfold St.cache_data. intros Hcall.
  assert (Hrun : match f k st.2 with
                 | (Ok v', log') => (Ok v', (<[k := (now, v')]> st.1, log'))
                 | (Raise e, log') => (Raise e, (delete k st.1, log'))
                 end = (Ok v, st1) ->
                 exists stored : Z,
                   st1.1 !! k = Some (stored, v) /\ now < stored + ttl /\
                   (st1 = st \/ (stored = now /\ st1.2 = (f k st.2).2))).
  { destruct (f k st.2) as [[v'|e] log']; [|discriminate].
    intros [= -> <-]. exists now. simpl.
    split; [apply lookup_insert_eq|]. split; [lia|]. right. auto. }
  destruct (st.1 !! k) as [[stored v0]|] eqn:Hentry; [|exact (Hrun Hcall)].
  destruct (Z.ltb_spec now (stored + ttl)); [|exact (Hrun Hcall)].
  injection Hcall as <- <-. exists stored. auto.
Qed.

(** A call leaves the entries of other arguments alone. *)
Lemma cache_data_other_key (now : Z) (k k' : K)
    (st : gmap K (Z * V) * list Requests.request) :
  k' <> k -> (St.cache_data ttl f now k' st).2.1 !! k = st.1 !! k.
Proof.
  intros Hne. unfold St.cache_data.
  assert (Hrun : (match f k' st.2 with
                  | (Ok v', log') => (Ok v', (<[k' := (now, v')]> st.1, log'))
                  | (Raise e, log') => (Raise e, (delete k' st.1, log'))
                  end).2.1 !! k = st.1 !! k).
  { destruct (f k' st.2) as [[v'|e] log']; simpl.
    - apply lookup_insert_ne, Hne.
    - apply lookup_delete_ne, Hne. }
  destruct (st.1 !! k') as [[stored v0]|]; [|exact Hrun].
  destruct (now <? stored + ttl); [reflexivity | exact Hrun].
Qed.

End cache_data_facts.

Lemma cache_data_log {K V : Type} `{Countable K} (ttl : Z) (f : K -> Requests.IO V)
    (now : Z) (k : K) (st : gmap K (Z * V) * list Requests.request) :
  (St.cache_data ttl f now k st).2.2 = st.2 \/
  (St.cache_data ttl f now k st).2.2 = (f k st.2).2.
Proof.
  unfold St.cache_data.
  assert (Hrun : (match f k st.2 with
                  | (Ok v', log') => (Ok v', (<[k := (now, v')]> st.1, log'))
                  | (Raise e, log') => (Raise e, (delete k st.1, log'))
                  end).2.2 = (f k st.2).2)
    by (destruct (f k st.2) as [[v'|e] log']; reflexivity).
  destruct (st.1 !! k) as [[stored v0]|]; [|right; exact Hrun].
  destruct (now <? stored + ttl); [left; reflexivity | right; exact Hrun].
Qed.

(** C6, as stated, fails: the ten minutes run from the moment a result
    is stored, not from the previous call.  After a fetch at second 0, the
    calls at seconds 500 and 700 lie within ten minutes of each other;
    the first is served from the cache, the second finds the entry
    expired and issues two new requests, and returns another result. *)
Lemma cached_call_window_counterexample :
  let s0 := (cached_get_weather_data srv_counting 0 "London" "metric" fresh).2 in
  let c1 := cached_get_weather_data srv_counting 500 "London" "metric" s0 in
  let c2 := cached_get_weather_data srv_counting 700 "London" "metric" c1.2 in
  500 <= 700 < 500 + 600 /\
  length c1.2.2 = 2%nat /\ length c2.2.2 = 4%nat /\
  c2.2.2 <> c1.2.2 /\
  exists d1 d2 : gmap string Requests.json,
    c1.1 = Ok d1 /\ c2.1 = Ok d2 /\
    d1 !! "current" = Some (Requests.JObj {[ "dt" := Requests.JNum 0 ]}) /\
    d2 !! "current" = Some (Requests.JObj {[ "dt" := Requests.JNum 2 ]}).
Proof.
  cbv zeta. split; [lia|]. split; [reflexivity|]. split; [reflexivity|]. split.
  - intros Heq. apply (f_equal length) in Heq. vm_compute in Heq. discriminate.
  - eexists _, _. repeat split; reflexivity.
Qed.

(** An entry outlives every run of calls made before it expires. *)
Lemma run_calls_keeps_entry (srv : Requests.server) (city unit : string) (stored : Z)
    (v : gmap string Requests.json) (calls : list (Z * (string * string)))
    (st : gmap (string * string) (Z * gmap string Requests.json) * list Requests.request) :
  st.1 !! (city, unit) = Some (stored, v) ->
  Forall (fun c => c.1 < stored + 600) calls ->
  (run_calls srv calls st).1 !! (city, unit) = Some (stored, v).
Proof.
  intros Hentry Hcalls. revert st Hentry.
  induction Hcalls as [|[now [city' unit']] calls Hnow _ IH]; intros st Hentry;
    [exact Hentry|].
  simpl. apply IH. unfold cached_get_weather_data.
  destruct (decide ((city', unit') = (city, unit))) as [[= -> ->]|Hne].
  - erewrite cache_data_hit; [exact Hentry | exact Hentry | exact Hnow].
  - rewrite cache_data_other_key; [exact Hentry | exact Hne].
Qed.

(** C6, amended: a call for a pair (place, unit system) that returns a
    result leaves that result in the cache, stored less than 600 seconds
    before the call (by the call itself when nothing was stored for the
    pair); every call for the same pair made less than 600 seconds after
    the result was stored, whatever calls were made in between, returns
    that result and issues no network request; and a second call made
    less than 600 seconds after the first adds, together with the first,
    at most one fetch (two requests). *)
Theorem cached_call_within_ttl
    (srv : Requests.server) (t1 t2 : Z) (city unit : string)
    (st st1 : gmap (string * string) (Z * gmap string Requests.json) * list Requests.request)
    (v : gmap string Requests.json) :
  cached_get_weather_data srv t1 city unit st = (Ok v, st1) ->
  exists stored : Z,
    st1.1 !! (city, unit) = Some (stored, v) /\
    t1 < stored + 600 /\
    (st.1 !! (city, unit) = None -> stored = t1) /\
    (forall between : list (Z * (string * string)),
        Forall (fun c => c.1 < stored + 600) between ->
        t2 < stored + 600 ->
        cached_get_weather_data srv t2 city unit (run_calls srv between st1)
        = (Ok v, run_calls srv between st1)) /\
    (t2 < t1 + 600 ->
     exists reqs : list Requests.request,
       (cached_get_weather_data srv t2 city unit st1).2.2 = st.2 ++ reqs /\
       (length reqs <= 2)%nat).
Proof.
  unfold cached_get_weather_data at 1. intros Hcall.
  destruct (cache_data_Ok 600 ltac:(lia) _ _ _ _ _ _ Hcall)
    as (stored & Hentry & Hyoung & Hhow).
  exists stored. split; [exact Hentry|]. split; [exact Hyoung|].
  assert (Hhit : forall between : list (Z * (string * string)),
             Forall (fun c => c.1 < stored + 600) between ->
             t2 < stored + 600 ->
             cached_get_weather_data srv t2 city unit (run_calls srv between st1)
             = (Ok v, run_calls srv between st1)).
  { intros between Hbetween Ht2. unfold cached_get_weather_data.
    eapply cache_data_hit; [|exact Ht2].
    apply run_calls_keeps_entry; assumption. }
  split; [|split; [exact Hhit|]].
  - intros Hnone. destruct Hhow as [-> | [-> _]]; [congruence | reflexivity].
  - intros Ht2. destruct Hhow as [-> | [-> Hlog]].
    + unfold cached_get_weather_data.
      destruct (cache_data_log 600 (fun k => get_weather_data srv k.1 k.2)
                  t2 (city, unit) st) as [-> | ->].
      * exists []. rewrite app_nil_r. split; [reflexivity | simpl; lia].
      * apply get_weather_data_log.
    + pose proof (Hhit [] (Forall_nil_2 _) Ht2) as Hsecond.
      cbn [run_calls] in Hsecond. rewrite Hsecond. cbn [snd]. rewrite Hlog.
      apply get_weather_data_log.
Qed.

Lemma cached_call_within_ttl_witness :
  let c1 := cached_get_weather_data srv_counting 0 "London" "metric" fresh in
  let s2 := run_calls srv_counting
              [(100, ("Paris", "metric")); (200, ("London", "imperial"))] c1.2 in
  exists d : gmap string Requests.json,
    c1.1 = Ok d /\
    cached_get_weather_data srv_counting 599 "London" "metric" s2 = (Ok d, s2) /\
    length c1.2.2 = 2%nat.
Proof.
  cbv zeta.
  destruct (cached_get_weather_data srv_counting 0 "London" "metric" fresh)
    as [[d|e] s1] eqn:Hcall; [|vm_compute in Hcall; discriminate].
  destruct (cached_call_within_ttl srv_counting 0 599 "London" "metric" fresh s1 d Hcall)
    as (stored & _ & _ & Hfresh & Hsame & _).
  exists d. split; [reflexivity|]. split.
  - rewrite (Hfresh eq_refl) in Hsame. apply Hsame; [|lia].
    repeat constructor.
  - rewrite <- Hcall. reflexivity.
Defined.

(** * Further properties of the code *)

(** ** [format_unix_time]: where it returns, where it raises, what it prints *)

Section time_text_facts.

Lemma digit_is_digit (d : Z) : 0 <= d <= 9 -> is_digit (Py.digit d) = true.
Proof.
  intros Hd.
  assert (Hcases : d = 0 \/ d = 1 \/ d = 2 \/ d = 3 \/ d = 4 \/ d = 5 \/ d = 6 \/
                   d = 7 \/ d = 8 \/ d = 9) by lia.
  repeat (destruct Hcases as [-> | Hcases]; [reflexivity|]). subst. reflexivity.
Qed.

Lemma digit_inj (a b : Z) : 0 <= a <= 9 -> 0 <= b <= 9 -> Py.digit a = Py.digit b -> a = b.
Proof.
  intros Ha Hb Heq. unfold Py.digit in Heq.
  apply (f_equal nat_of_ascii) in Heq.
  rewrite !nat_ascii_embedding in Heq by lia. lia.
Qed.

Lemma two_digits_inj (a b : Z) :
  0 <= a < 100 -> 0 <= b < 100 -> Py.two_digits a = Py.two_digits b -> a = b.
Proof.
  intros Ha Hb Heq. unfold Py.two_digits in Heq. injection Heq as Hhi Hlo.
  assert (Hra : 0 <= a / 10 <= 9 /\ 0 <= a mod 10 <= 9 /\ a = 10 * (a / 10) + a mod 10)
    by (Z.div_mod_to_equations; lia).
  assert (Hrb : 0 <= b / 10 <= 9 /\ 0 <= b mod 10 <= 9 /\ b = 10 * (b / 10) + b mod 10)
    by (Z.div_mod_to_equations; lia).
  apply digit_inj in Hhi; [|tauto..]. apply digit_inj in Hlo; [|tauto..].
  destruct Hra as (_ & _ & ->). destruct Hrb as (_ & _ & ->). rewrite Hhi, Hlo. reflexivity.
Qed.

Lemma clock_fields (x : Z) :
  0 <= Py.hour x < 24 /\ 0 <= Py.minute x < 60 /\ 0 <= Py.second x < 60 /\
  3600 * Py.hour x + 60 * Py.minute x + Py.second x = x mod 86400.
Proof. unfold Py.hour, Py.minute, Py.second. Z.div_mod_to_equations. lia. Qed.

Lemma strftime_HMS_chars (x : Z) :
  Py.strftime_HMS x
  = String (Py.digit (Py.hour x / 10)) (String (Py.digit (Py.hour x mod 10))
      (String ":" (String (Py.digit (Py.minute x / 10)) (String (Py.digit (Py.minute x mod 10))
        (String ":" (String (Py.digit (Py.second x / 10))
           (String (Py.digit (Py.second x mod 10)) EmptyString))))))).
Proof. reflexivity. Qed.

Lemma strftime_HMS_inj (x y : Z) :
  Py.strftime_HMS x = Py.strftime_HMS y <-> x mod 86400 = y mod 86400.
Proof.
  split.
  - intros Heq.
    destruct (clock_fields x) as (Hh & Hm & Hs & <-).
    destruct (clock_fields y) as (Hh' & Hm' & Hs' & <-).
    unfold Py.strftime_HMS in Heq.
    assert (Hparts : Py.two_digits (Py.hour x) = Py.two_digits (Py.hour y) /\
                     Py.two_digits (Py.minute x) = Py.two_digits (Py.minute y) /\
                     Py.two_digits (Py.second x) = Py.two_digits (Py.second y)).
    { unfold Py.two_digits in *. simpl in Heq. injection Heq as -> -> -> -> -> ->. auto. }
    destruct Hparts as (Hhh & Hmm & Hss).
    apply two_digits_inj in Hhh; [|lia..].
    apply two_digits_inj in Hmm; [|lia..].
    apply two_digits_inj in Hss; [|lia..]. lia.
  - intros Heq. unfold Py.strftime_HMS, Py.hour, Py.minute, Py.second.
    rewrite Heq. reflexivity.
Qed.

End time_text_facts.

(** On what the provider sends [format_unix_time] does not fail: for a
    timestamp from 1970 up to 2^31 and an offset of at most one day either
    way it returns the text of the shifted time. *)
Theorem format_unix_time_returns (t offset : Z) :
  0 <= t < 2147483648 -> -86400 <= offset <= 86400 ->
  format_unix_time t offset = Ok (Py.strftime_HMS (t + offset)).
Proof.
  intros Ht Hoff. apply format_unix_time_Ok. split; [|split; [|split]].
  - apply representable_range. unfold Py.MINSECONDS, Py.MAXSECONDS. lia.
  - unfold Pd.Timedelta.
    destruct (Z.leb_spec (- Pd.MAX_TIMEDELTA_SECONDS) offset);
      [|unfold Pd.MAX_TIMEDELTA_SECONDS in *; lia].
    destruct (Z.leb_spec offset Pd.MAX_TIMEDELTA_SECONDS);
      [reflexivity | unfold Pd.MAX_TIMEDELTA_SECONDS in *; lia].
  - apply representable_range. unfold Py.MINSECONDS, Py.MAXSECONDS. lia.
  - reflexivity.
Qed.

Lemma format_unix_time_returns_witness :
  format_unix_time 1700000000 (-18000) = Ok (Py.strftime_HMS (1700000000 + -18000)).
Proof. apply (format_unix_time_returns 1700000000 (-18000)); lia. Defined.

(** [format_unix_time] returns only within the years 1..9999 of
    [datetime]: a timestamp outside them makes the call raise whatever the
    offset, even one that brings the shifted time back into these years,
    and so does a shifted time outside them. *)
Theorem format_unix_time_out_of_range (t offset : Z) :
  ~ Py.MINSECONDS <= t <= Py.MAXSECONDS \/
  ~ Py.MINSECONDS <= t + offset <= Py.MAXSECONDS ->
  exists e : exn, format_unix_time t offset = Raise e.
Proof.
  intros Hout. destruct (format_unix_time t offset) as [s|e] eqn:Hcall; [|eauto].
  apply format_unix_time_Ok in Hcall as (Ht & _ & Hsum & _).
  apply representable_range in Ht, Hsum. tauto.
Qed.

Lemma format_unix_time_out_of_range_witness :
  exists e : exn, format_unix_time 253402300800 (-1) = Raise e.
Proof.
  apply (format_unix_time_out_of_range 253402300800 (-1)).
  left. unfold Py.MINSECONDS, Py.MAXSECONDS. lia.
Defined.

(** Every string [format_unix_time] returns has the shape [HH:MM:SS]
    (eight characters, digits around two colons) and shows the hour below
    24, the minute and the second below 60 of the second of the day of the
    shifted timestamp. *)
Theorem format_unix_time_shape (t offset : Z) (s : string) :
  format_unix_time t offset = Ok s ->
  hms_shape s = true /\
  exists h m sec : Z,
    0 <= h < 24 /\ 0 <= m < 60 /\ 0 <= sec < 60 /\
    3600 * h + 60 * m + sec = (t + offset) mod 86400 /\
    s = Py.two_digits h +:+ ":" +:+ Py.two_digits m +:+ ":" +:+ Py.two_digits sec.
Proof.
  intros Hs. apply format_unix_time_Ok in Hs as (_ & _ & _ & ->).
  destruct (clock_fields (t + offset)) as (Hh & Hm & Hsec & Hday).
  split.
  - rewrite strftime_HMS_chars. unfold hms_shape.
    rewrite !digit_is_digit by (Z.div_mod_to_equations; lia). reflexivity.
  - exists (Py.hour (t + offset)), (Py.minute (t + offset)), (Py.second (t + offset)).
    repeat split; try lia.
Qed.

Lemma format_unix_time_shape_witness :
  hms_shape "03:43:20" = true /\
  exists h m sec : Z,
    0 <= h < 24 /\ 0 <= m < 60 /\ 0 <= sec < 60 /\
    3600 * h + 60 * m + sec = (1700000000 + 19800) mod 86400 /\
    "03:43:20" = Py.two_digits h +:+ ":" +:+ Py.two_digits m +:+ ":" +:+ Py.two_digits sec.
Proof. apply (format_unix_time_shape 1700000000 19800 "03:43:20"). reflexivity. Defined.

(** Two successful calls return the same string exactly when their
    shifted timestamps fall on the same second of the day: the text
    carries the time of day and nothing of the date. *)
Theorem format_unix_time_same_text (t offset t' offset' : Z) (s s' : string) :
  format_unix_time t offset = Ok s ->
  format_unix_time t' offset' = Ok s' ->
  (s = s' <-> (t + offset) mod 86400 = (t' + offset') mod 86400).
Proof.
  intros Hs Hs'.
  apply format_unix_time_Ok in Hs as (_ & _ & _ & ->).
  apply format_unix_time_Ok in Hs' as (_ & _ & _ & ->).
  apply strftime_HMS_inj.
Qed.

Lemma format_unix_time_same_text_witness :
  "03:43:20" = "03:43:20" <->
  (1700000000 + 19800) mod 86400 = (1700086400 + 19800) mod 86400.
Proof.
  apply (format_unix_time_same_text 1700000000 19800 1700086400 19800); reflexivity.
Defined.

(** ** [create_forecast_dataframe]: where it returns, what the rows hold *)

Section aggregation_facts.

Lemma traverse_Raise {A B : Type} (f : A -> result B) (l : list A) (e : exn) :
  traverse f l = Raise e -> exists a, a ∈ l /\ f a = Raise e.
Proof.
  induction l as [|a l IH]; simpl; [discriminate|].
  destruct (f a) as [b|e'] eqn:Hfa; simpl.
  - destruct (traverse f l) as [bs|e'']; simpl; [discriminate|].
    intros [= <-]. destruct (IH eq_refl) as (a' & Ha' & Hf).
    exists a'. split; [right; exact Ha' | exact Hf].
  - intros [= <-]. exists a. split; [left | exact Hfa].
Qed.

Lemma Qmax_cases (a b : Q) : Qmax a b = a \/ Qmax a b = b.
Proof. unfold Qmax, GenericMinMax.gmax. destruct (a ?= b)%Q; auto. Qed.

Lemma Qmin_cases (a b : Q) : Qmin a b = a \/ Qmin a b = b.
Proof. unfold Qmin, GenericMinMax.gmin. destruct (a ?= b)%Q; auto. Qed.

(** The maximum of a group bounds every value of the group and is one
    of them. *)
Lemma series_max_spec (x : Q) (xs : list Q) :
  (forall y, y ∈ x :: xs -> (y <= Pd.series_max x xs)%Q) /\ Pd.series_max x xs ∈ x :: xs.
Proof.
  unfold Pd.series_max. revert x. induction xs as [|x' xs IH]; intros x; simpl.
  - split; [|left]. intros y Hy. apply list_elem_of_singleton in Hy as ->. apply Qle_refl.
  - destruct (IH (Qmax x x')) as (Hbound & Hin). split.
    + intros y Hy.
      assert (Hfirst : (Qmax x x' <= foldl Qmax (Qmax x x') xs)%Q) by (apply Hbound; left).
      apply elem_of_cons in Hy as [->|Hy]; [|apply elem_of_cons in Hy as [->|Hy]].
      * eapply Qle_trans; [apply Q.le_max_l | exact Hfirst].
      * eapply Qle_trans; [apply Q.le_max_r | exact Hfirst].
      * apply Hbound. right. exact Hy.
    + apply elem_of_cons in Hin as [->|Hin]; [|right; right; exact Hin].
      destruct (Qmax_cases x x') as [-> | ->]; [left | right; left].
Qed.

Lemma series_min_spec (x : Q) (xs : list Q) :
  (forall y, y ∈ x :: xs -> (Pd.series_min x xs <= y)%Q) /\ Pd.series_min x xs ∈ x :: xs.
Proof.
  unfold Pd.series_min. revert x. induction xs as [|x' xs IH]; intros x; simpl.
  - split; [|left]. intros y Hy. apply list_elem_of_singleton in Hy as ->. apply Qle_refl.
  - destruct (IH (Qmin x x')) as (Hbound & Hin). split.
    + intros y Hy.
      assert (Hfirst : (foldl Qmin (Qmin x x') xs <= Qmin x x')%Q) by (apply Hbound; left).
      apply elem_of_cons in Hy as [->|Hy]; [|apply elem_of_cons in Hy as [->|Hy]].
      * eapply Qle_trans; [exact Hfirst | apply Q.le_min_l].
      * eapply Qle_trans; [exact Hfirst | apply Q.le_min_r].
      * apply Hbound. right. exact Hy.
    + apply elem_of_cons in Hin as [->|Hin]; [|right; right; exact Hin].
      destruct (Qmin_cases x x') as [-> | ->]; [left | right; left].
Qed.

Lemma sorted_unique_length (ks : list Z) :
  length (Pd.sorted_unique ks) = length (remove_dups ks).
Proof.
  apply Permutation_length, NoDup_Permutation.
  - apply StronglySorted_lt_NoDup, sorted_unique_sorted.
  - apply NoDup_remove_dups.
  - intros k. rewrite elem_of_sorted_unique, elem_of_remove_dups. reflexivity.
Qed.

Lemma sorted_unique_Permutation (ks ks' : list Z) :
  ks ≡ₚ ks' -> Pd.sorted_unique ks = Pd.sorted_unique ks'.
Proof.
  intros Hperm. apply (StronglySorted_unique_strong Z.lt).
  - intros x1 x2 _ _ H12 H21. lia.
  - apply sorted_unique_sorted.
  - apply sorted_unique_sorted.
  - apply NoDup_Permutation.
    + apply StronglySorted_lt_NoDup, sorted_unique_sorted.
    + apply StronglySorted_lt_NoDup, sorted_unique_sorted.
    + intros k. rewrite !elem_of_sorted_unique, Hperm. reflexivity.
Qed.

End aggregation_facts.

(** On forecasts [create_forecast_dataframe] does not fail: for a list
    of samples that is not empty, with timestamps from 1970-01-02 up to
    2^31, on a host whose UTC offset stays within one day, it returns a
    table. *)
Theorem create_forecast_dataframe_returns_on_forecasts
    (tz : Z -> Z) (l : list entry) (sym : string) :
  l <> [] ->
  Forall (fun e => 86400 <= dt e < 2147483648 /\ -86400 <= tz (dt e) <= 86400) l ->
  exists out, create_forecast_dataframe tz l sym = Ok out.
Proof.
  intros Hne Hrange. apply create_forecast_dataframe_returns; [exact Hne|].
  eapply Forall_impl; [exact Hrange|]. intros e (Hdt & Htz). simpl.
  apply representable_range. unfold Py.MINSECONDS, Py.MAXSECONDS. lia.
Qed.

Lemma create_forecast_dataframe_returns_on_forecasts_witness :
  exists out,
    create_forecast_dataframe host_ist
      [mkEntry 1700000000 10 "mist"; mkEntry 1700010800 12 "haze"] "°F" = Ok out.
Proof.
  apply (create_forecast_dataframe_returns_on_forecasts host_ist
           [mkEntry 1700000000 10 "mist"; mkEntry 1700010800 12 "haze"] "°F").
  - discriminate.
  - repeat constructor; simpl; unfold host_ist; lia.
Defined.

(** Grouping and aggregation add no failure of their own on a list that
    is not empty: [KeyError] is raised for the empty list only,
    [x.iloc[0]] never meets an empty group ([IndexError] is never raised),
    and once the loop over the samples has built the frame from a
    non-empty list, a table is returned; conversely a table is returned
    only for a non-empty list whose frame was built. *)
Theorem create_forecast_dataframe_aggregation_never_raises
    (tz : Z -> Z) (l : list entry) (sym : string) :
  (forall key, create_forecast_dataframe tz l sym = Raise (KeyError key) -> l = []) /\
  create_forecast_dataframe tz l sym <> Raise IndexError /\
  (forall df, forecast_frame tz l sym = Ok df -> l <> [] ->
     exists out, create_forecast_dataframe tz l sym = Ok out) /\
  (forall out, create_forecast_dataframe tz l sym = Ok out ->
     l <> [] /\ exists df, forecast_frame tz l sym = Ok df).
Proof.
  assert (Hraise : forall e, create_forecast_dataframe tz l sym = Raise e ->
                     l <> [] -> e = ValueError).
  { intros e He Hne.
    destruct (traverse (forecast_record tz) l) as [df_list|e'] eqn:Htraverse.
    - apply traverse_forecast_record in Htraverse as (Hrep & _).
      destruct (create_forecast_dataframe_returns tz l sym Hne Hrep) as (out & Hout).
      congruence.
    - assert (Hsame : create_forecast_dataframe tz l sym = Raise e').
      { unfold create_forecast_dataframe, forecast_frame. rewrite Htraverse. reflexivity. }
      assert (e = e') as -> by congruence.
      apply traverse_Raise in Htraverse as (s & _ & Hrec).
      unfold forecast_record, Py.fromtimestamp in Hrec.
      destruct (Py.representable (dt s + tz (dt s))); simpl in Hrec; congruence. }
  split; [|split; [|split]].
  - intros key Hkey. destruct l as [|e0 l0]; [reflexivity|].
    specialize (Hraise _ Hkey ltac:(discriminate)). discriminate.
  - intros Hindex. destruct l as [|e0 l0].
    + assert (Hempty : create_forecast_dataframe tz [] sym = Raise (KeyError "Date"))
        by reflexivity.
      congruence.
    + specialize (Hraise _ Hindex ltac:(discriminate)). discriminate.
  - intros df Hdf Hne. apply forecast_frame_Ok in Hdf as (Hrep & _).
    apply create_forecast_dataframe_returns; assumption.
  - intros out Hout.
    apply create_forecast_dataframe_Ok in Hout as (Hne & Hrep & _).
    split; [exact Hne|]. eexists. unfold forecast_frame.
    apply bind_Ok. exists (frame_row_of tz <$> l).
    split; [apply traverse_forecast_record; auto | reflexivity].
Qed.

Lemma create_forecast_dataframe_aggregation_never_raises_witness :
  exists out, create_forecast_dataframe host_utc two_days "°C" = Ok out.
Proof.
  destruct (create_forecast_dataframe_aggregation_never_raises host_utc two_days "°C")
    as (_ & _ & Hbuilt & _).
  eapply Hbuilt; [reflexivity | discriminate].
Defined.

(** The table has one row per distinct local date of the samples, up to
    five: its number of rows is the smaller of 5 and the number of
    distinct dates. *)
Theorem daily_table_row_count
    (tz : Z -> Z) (l : list entry) (sym : string) (out : Pd.DataFrame daily_row) :
  create_forecast_dataframe tz l sym = Ok out ->
  length (Pd.records out) = Nat.min 5 (length (remove_dups (local_date tz <$> l))).
Proof.
  intros H. apply create_forecast_dataframe_Ok in H as (_ & _ & rows & -> & Hkeys & _).
  cbn [Pd.records]. rewrite length_take, <- sorted_unique_length, <- Hkeys, length_fmap.
  reflexivity.
Qed.

Lemma daily_table_row_count_witness :
  2%nat = Nat.min 5 (length (remove_dups (local_date host_utc <$> two_days))).
Proof.
  apply (daily_table_row_count host_utc two_days "°C"
           (Pd.mkDataFrame daily_columns
              [mkDailyRow 0 15 8 "Clear sky"; mkDailyRow 1 20 13 "Light rain"])).
  reflexivity.
Defined.

(** No date is invented and the earliest dates are kept: the date of
    every row is the local date of some sample, and a sample whose date
    has no row comes after every date of the table, which is then full
    (five rows). *)
Theorem daily_table_keeps_earliest_dates
    (tz : Z -> Z) (l : list entry) (sym : string) (out : Pd.DataFrame daily_row) :
  create_forecast_dataframe tz l sym = Ok out ->
  (forall r, r ∈ Pd.records out -> exists e, e ∈ l /\ local_date tz e = Date r) /\
  (forall e, e ∈ l ->
     (exists r, r ∈ Pd.records out /\ Date r = local_date tz e) \/
     (length (Pd.records out) = 5%nat /\
      forall r, r ∈ Pd.records out -> Date r < local_date tz e)).
Proof.
  intros H. apply create_forecast_dataframe_Ok in H as (_ & _ & rows & -> & Hkeys & Hrows).
  cbn [Pd.records]. split.
  - intros r Hr. apply elem_of_take in Hr as (i & Hi & _).
    apply list_elem_of_lookup_2, Hrows in Hi as (e & es & Hgroup & _).
    assert (He : e ∈ samples_of_date tz (Date r) l) by (rewrite Hgroup; left).
    apply list_elem_of_filter in He as (Hdate & He). eauto.
  - intros e He.
    assert (Hkey : local_date tz e ∈ Date <$> rows).
    { rewrite Hkeys. apply elem_of_sorted_unique, list_elem_of_fmap_2, He. }
    assert (Hsorted : StronglySorted Z.lt (Date <$> rows))
      by (rewrite Hkeys; apply sorted_unique_sorted).
    rewrite <- (take_drop 5 rows), fmap_app in Hkey, Hsorted.
    apply elem_of_app in Hkey as [Hkept | Hcut].
    + left. apply list_elem_of_fmap in Hkept as (r & Hdate & Hr). eauto.
    + right. split.
      * apply list_elem_of_fmap in Hcut as (r & _ & Hr).
        rewrite length_take. apply list_elem_of_lookup_1 in Hr as (i & Hi).
        apply lookup_lt_Some in Hi. rewrite length_drop in Hi. lia.
      * intros r Hr.
        eapply (StronglySorted_app_1_elem_of Z.lt _ _ _ _ Hsorted);
          [apply list_elem_of_fmap_2, Hr | exact Hcut].
Qed.

Lemma daily_table_keeps_earliest_dates_witness :
  let e := mkEntry (6 * 86400 + 43200) 6 "mist" in
  let out := Pd.mkDataFrame daily_columns
               ((fun d => mkDailyRow d (inject_Z d) (inject_Z d) "Mist") <$> [0; 1; 2; 3; 4]) in
  e ∈ seven_days /\
  ((exists r, r ∈ Pd.records out /\ Date r = local_date host_utc e) \/
   (length (Pd.records out) = 5%nat /\
    forall r, r ∈ Pd.records out -> Date r < local_date host_utc e)).
Proof.
  intros e out.
  assert (He : e ∈ seven_days) by (unfold seven_days, e; set_solver).
  split; [exact He|].
  apply (daily_table_keeps_earliest_dates host_utc seven_days "°C" out); [reflexivity | exact He].
Defined.

(** In every row, [Max_Temp] is the temperature of one of the samples of
    the row's date and no sample of that date is warmer; [Min_Temp] is the
    temperature of one of them and none is colder. *)
Theorem daily_extremes_are_attained_bounds
    (tz : Z -> Z) (l : list entry) (sym : string) (out : Pd.DataFrame daily_row)
    (r : daily_row) :
  create_forecast_dataframe tz l sym = Ok out ->
  r ∈ Pd.records out ->
  (forall e, e ∈ l -> local_date tz e = Date r ->
     (Min_Temp r <= temp e)%Q /\ (temp e <= Max_Temp r)%Q) /\
  (exists e, e ∈ l /\ local_date tz e = Date r /\ Max_Temp r = temp e) /\
  (exists e, e ∈ l /\ local_date tz e = Date r /\ Min_Temp r = temp e).
Proof.
  intros H Hr. apply create_forecast_dataframe_Ok in H as (_ & _ & rows & -> & _ & Hrows).
  cbn [Pd.records] in Hr. apply elem_of_take in Hr as (i & Hi & _).
  apply list_elem_of_lookup_2, Hrows in Hi as (e0 & es & Hgroup & Hrow).
  assert (Hmem : forall e, e ∈ e0 :: es <-> local_date tz e = Date r /\ e ∈ l).
  { intros e. rewrite <- Hgroup. unfold samples_of_date.
    rewrite list_elem_of_filter. reflexivity. }
  destruct (series_max_spec (temp e0) (temp <$> es)) as (Hmax_bound & Hmax_in).
  destruct (series_min_spec (temp e0) (temp <$> es)) as (Hmin_bound & Hmin_in).
  change (temp e0 :: (temp <$> es)) with (temp <$> e0 :: es) in *.
  assert (Hmax : Max_Temp r = Pd.series_max (temp e0) (temp <$> es))
    by (rewrite Hrow; reflexivity).
  assert (Hmin : Min_Temp r = Pd.series_min (temp e0) (temp <$> es))
    by (rewrite Hrow; reflexivity).
  rewrite Hmax, Hmin.
  split; [|split].
  - intros e He Hdate.
    assert (Hin : temp e ∈ temp <$> e0 :: es)
      by (apply list_elem_of_fmap_2, Hmem; auto).
    split; [apply Hmin_bound, Hin | apply Hmax_bound, Hin].
  - apply list_elem_of_fmap in Hmax_in as (e & Heq & He).
    apply Hmem in He as (Hdate & He). eauto.
  - apply list_elem_of_fmap in Hmin_in as (e & Heq & He).
    apply Hmem in He as (Hdate & He). eauto.
Qed.

Lemma daily_extremes_are_attained_bounds_witness :
  (forall e, e ∈ two_days -> local_date host_utc e = 1 ->
     (13 <= temp e)%Q /\ (temp e <= 20)%Q) /\
  (exists e, e ∈ two_days /\ local_date host_utc e = 1 /\ 20%Q = temp e) /\
  (exists e, e ∈ two_days /\ local_date host_utc e = 1 /\ 13%Q = temp e).
Proof.
  apply (daily_extremes_are_attained_bounds host_utc two_days "°C"
           (Pd.mkDataFrame daily_columns
              [mkDailyRow 0 15 8 "Clear sky"; mkDailyRow 1 20 13 "Light rain"])
           (mkDailyRow 1 20 13 "Light rain")).
  - reflexivity.
  - cbn [Pd.records]. set_solver.
Defined.

(** The unit symbol only names a column of the intermediate frame: the
    result of [create_forecast_dataframe], table or exception, is the same
    for every symbol. *)
Theorem create_forecast_dataframe_unit_symbol
    (tz : Z -> Z) (l : list entry) (sym sym' : string) :
  create_forecast_dataframe tz l sym = create_forecast_dataframe tz l sym'.
Proof.
  unfold create_forecast_dataframe, forecast_frame.
  destruct (traverse (forecast_record tz) l) as [df_list|e]; [|reflexivity].
  destruct df_list as [|r rs]; [reflexivity|].
  unfold mbind, result_bind. rewrite !groupby_Date_of_dicts. reflexivity.
Qed.

Section sample_order_facts.

Lemma series_max_same_elements (x y : Q) (xs ys : list Q) :
  (forall q, q ∈ x :: xs <-> q ∈ y :: ys) ->
  (Pd.series_max x xs == Pd.series_max y ys)%Q.
Proof.
  intros Hsame.
  destruct (series_max_spec x xs) as (Hbx & Hix).
  destruct (series_max_spec y ys) as (Hby & Hiy).
  apply Qle_antisym; [apply Hby, Hsame, Hix | apply Hbx, Hsame, Hiy].
Qed.

Lemma series_min_same_elements (x y : Q) (xs ys : list Q) :
  (forall q, q ∈ x :: xs <-> q ∈ y :: ys) ->
  (Pd.series_min x xs == Pd.series_min y ys)%Q.
Proof.
  intros Hsame.
  destruct (series_min_spec x xs) as (Hbx & Hix).
  destruct (series_min_spec y ys) as (Hby & Hiy).
  apply Qle_antisym; [apply Hbx, Hsame, Hiy | apply Hby, Hsame, Hix].
Qed.

End sample_order_facts.

(** The order of the samples matters for the weather label only: for a
    reordered list the function returns a table with the same dates, row
    by row, and with maxima and minima of the same value. *)
Theorem daily_table_sample_order
    (tz : Z -> Z) (l l' : list entry) (sym : string) (out : Pd.DataFrame daily_row) :
  l ≡ₚ l' ->
  create_forecast_dataframe tz l sym = Ok out ->
  exists out' : Pd.DataFrame daily_row,
    create_forecast_dataframe tz l' sym = Ok out' /\
    Forall2 (fun r r' => Date r = Date r' /\
                         (Max_Temp r == Max_Temp r')%Q /\ (Min_Temp r == Min_Temp r')%Q)
      (Pd.records out) (Pd.records out').
Proof.
  intros Hperm Hout.
  apply create_forecast_dataframe_Ok in Hout as (Hne & Hrep & rows & -> & Hkeys & Hrows).
  assert (Hne' : l' <> []).
  { intros ->. apply Permutation_nil_r in Hperm. contradiction. }
  assert (Hrep' : Forall (fun e => Py.representable (dt e + tz (dt e)) = true) l')
    by (rewrite <- Hperm; exact Hrep).
  destruct (create_forecast_dataframe_returns tz l' sym Hne' Hrep') as (out' & Hout').
  exists out'. split; [exact Hout'|].
  apply create_forecast_dataframe_Ok in Hout' as (_ & _ & rows' & -> & Hkeys' & Hrows').
  cbn [Pd.records]. apply Forall2_take.
  assert (Hdates : Date <$> rows = Date <$> rows').
  { rewrite Hkeys, Hkeys'. apply sorted_unique_Permutation, fmap_Permutation, Hperm. }
  apply Forall2_same_length_lookup_2.
  { apply (f_equal length) in Hdates. rewrite !length_fmap in Hdates. exact Hdates. }
  intros i r r' Hi Hi'.
  assert (Hdate : Date r = Date r').
  { apply (f_equal (fun ds => ds !! i)) in Hdates.
    rewrite !list_lookup_fmap, Hi, Hi' in Hdates. simpl in Hdates. congruence. }
  apply list_elem_of_lookup_2, Hrows in Hi as (e & es & Hgroup & Hrow).
  apply list_elem_of_lookup_2, Hrows' in Hi' as (e' & es' & Hgroup' & Hrow').
  assert (Hsame : forall q, q ∈ temp <$> e :: es <-> q ∈ temp <$> e' :: es').
  { intros q. rewrite <- Hgroup, <- Hgroup', <- Hdate. unfold samples_of_date.
    rewrite !list_elem_of_fmap. setoid_rewrite list_elem_of_filter.
    setoid_rewrite Hperm. reflexivity. }
  split; [exact Hdate|]. rewrite Hrow, Hrow'. cbn [Max_Temp Min_Temp daily_row_of].
  split; [apply series_max_same_elements | apply series_min_same_elements]; exact Hsame.
Qed.

Lemma daily_table_sample_order_witness :
  exists out' : Pd.DataFrame daily_row,
    create_forecast_dataframe host_utc (reverse two_days) "°C" = Ok out' /\
    Forall2 (fun r r' => Date r = Date r' /\
                         (Max_Temp r == Max_Temp r')%Q /\ (Min_Temp r == Min_Temp r')%Q)
      [mkDailyRow 0 15 8 "Clear sky"; mkDailyRow 1 20 13 "Light rain"]
      (Pd.records out').
Proof.
  apply (daily_table_sample_order host_utc two_days (reverse two_days) "°C"
           (Pd.mkDataFrame daily_columns
              [mkDailyRow 0 15 8 "Clear sky"; mkDailyRow 1 20 13 "Light rain"])).
  - symmetry. apply reverse_Permutation.
  - reflexivity.
Defined.

(** ** [get_weather_data]: requests, results and exceptions *)

Section client_facts.

Import Requests.

Variable srv : server.
Variables city unit : string.

Lemma get_weather_data_no_current_response (log : list request) (e : exn) :
  srv log (current_request city unit) = Raise e ->
  get_weather_data srv city unit log = (Raise e, log ++ [current_request city unit]).
Proof.
  unfold current_request. intros Hcur.
  unfold get_weather_data, mbind, IO_bind, Requests.get. rewrite Hcur. reflexivity.
Qed.

Lemma get_weather_data_no_forecast_response (log : list request) (cur : Response) (e : exn) :
  srv log (current_request city unit) = Ok cur ->
  srv (log ++ [current_request city unit]) (forecast_request city unit) = Raise e ->
  get_weather_data srv city unit log
  = (Raise e, log ++ [current_request city unit; forecast_request city unit]).
Proof.
  unfold current_request, forecast_request. intros Hcur Hfc.
  unfold get_weather_data, mbind, IO_bind, Requests.get.
  rewrite Hcur, Hfc, <- app_assoc. reflexivity.
Qed.

(** Whatever is returned is one of the two dicts of the source. *)
Lemma get_weather_data_Ok (log : list request) (d : gmap string json) :
  (get_weather_data srv city unit log).1 = Ok d ->
  exists cur fc : Response,
    srv log (current_request city unit) = Ok cur /\
    srv (log ++ [current_request city unit]) (forecast_request city unit) = Ok fc /\
    ((exists m, d = {[ "error" := m ]} /\
                (status_code cur ≠ 200 \/ status_code fc ≠ 200)) \/
     (status_code cur = 200 /\ status_code fc = 200 /\
      exists c f, content cur = Some c /\ content fc = Some f /\
                  d = {[ "current" := c; "forecast" := f ]})).
Proof.
  intros Hd.
  destruct (srv log (current_request city unit)) as [cur|e] eqn:Hcur;
    [|rewrite (get_weather_data_no_current_response log e Hcur) in Hd; discriminate].
  destruct (srv (log ++ [current_request city unit]) (forecast_request city unit))
    as [fc|e] eqn:Hfc;
    [|rewrite (get_weather_data_no_forecast_response log cur e Hcur Hfc) in Hd; discriminate].
  exists cur, fc. split; [reflexivity|]. split; [reflexivity|].
  rewrite (get_weather_data_responses srv city unit log cur fc Hcur Hfc) in Hd.
  cbn [fst] in Hd.
  destruct (decide (status_code cur ≠ 200)) as [Hc|Hc];
    [|destruct (decide (status_code fc ≠ 200)) as [Hf|Hf]].
  - left. apply bind_Ok in Hd as (body & _ & Hd). apply bind_Ok in Hd as (m & _ & [= <-]).
    exists m. auto.
  - left. apply bind_Ok in Hd as (body & _ & Hd). apply bind_Ok in Hd as (m & _ & [= <-]).
    exists m. auto.
  - right. apply dec_stable in Hc. apply dec_stable in Hf.
    apply bind_Ok in Hd as (c & Hcontent & Hd). apply bind_Ok in Hd as (f & Hcontent' & [= <-]).
    unfold json_of in Hcontent, Hcontent'.
    destruct (content cur) as [c0|]; [|discriminate].
    destruct (content fc) as [f0|]; [|discriminate].
    injection Hcontent as ->. injection Hcontent' as ->.
    split; [exact Hc|]. split; [exact Hf|]. exists c, f. auto.
Qed.

End client_facts.

(** A dict returned by [get_weather_data] either has the key 'error'
    and nothing else, or has no key 'error' and both the keys 'current'
    and 'forecast': the test ['error' in data] of the page decides between
    the two, and [data['current']], [data['forecast']] never miss. *)
Theorem get_weather_data_result_shape
    (srv : Requests.server) (city unit : string) (log : list Requests.request)
    (d : gmap string Requests.json) :
  (get_weather_data srv city unit log).1 = Ok d ->
  (is_Some (d !! "error") /\ d !! "current" = None /\ d !! "forecast" = None) \/
  (d !! "error" = None /\ is_Some (d !! "current") /\ is_Some (d !! "forecast")).
Proof.
  intros Hd. apply get_weather_data_Ok in Hd as (cur & fc & _ & _ & Hshape).
  destruct Hshape as [(m & -> & _) | (_ & _ & c & f & _ & _ & ->)].
  - left. rewrite lookup_singleton_eq, !lookup_singleton_ne by discriminate. eauto.
  - right. rewrite lookup_insert_ne, lookup_singleton_ne by discriminate.
    rewrite lookup_insert_eq, lookup_insert_ne, lookup_singleton_eq by discriminate. eauto.
Qed.

Lemma get_weather_data_result_shape_witness :
  exists d : gmap string Requests.json,
    (get_weather_data srv_counting "London" "metric" []).1 = Ok d /\
    ((is_Some (d !! "error") /\ d !! "current" = None /\ d !! "forecast" = None) \/
     (d !! "error" = None /\ is_Some (d !! "current") /\ is_Some (d !! "forecast"))).
Proof.
  eexists. split; [reflexivity|].
  apply (get_weather_data_result_shape srv_counting "London" "metric" []). reflexivity.
Defined.

(** Weather data is returned exactly when both requests are answered
    with status 200 and bodies that decode as JSON; the two bodies are
    then passed on as they are, under 'current' and 'forecast'. *)
Theorem get_weather_data_success
    (srv : Requests.server) (city unit : string) (log : list Requests.request)
    (c f : Requests.json) :
  (get_weather_data srv city unit log).1 = Ok {[ "current" := c; "forecast" := f ]} <->
  (srv log (current_request city unit) = Ok (Requests.mkResponse 200 (Some c)) /\
   srv (log ++ [current_request city unit]) (forecast_request city unit)
     = Ok (Requests.mkResponse 200 (Some f))).
Proof.
  split.
  - intros Hd. apply get_weather_data_Ok in Hd as (cur & fc & Hcur & Hfc & Hshape).
    destruct Hshape as [(m & Heq & _) | (Hc & Hf & c' & f' & Hbc & Hbf & Heq)].
    + apply (f_equal (fun d => d !! "current")) in Heq.
      rewrite lookup_insert_eq, lookup_singleton_ne in Heq by discriminate. discriminate.
    + assert (Hcc : Some c = Some c').
      { apply (f_equal (fun d => d !! "current")) in Heq.
        rewrite !lookup_insert_eq in Heq. exact Heq. }
      assert (Hff : Some f = Some f').
      { apply (f_equal (fun d => d !! "forecast")) in Heq.
        rewrite !lookup_insert_ne, !lookup_singleton_eq in Heq by discriminate. exact Heq. }
      injection Hcc as ->. injection Hff as ->.
      destruct cur as [sc bc], fc as [sf bf]. simpl in *. subst. auto.
  - intros (Hcur & Hfc).
    rewrite (get_weather_data_responses srv city unit log _ _ Hcur Hfc). reflexivity.
Qed.

Lemma get_weather_data_success_witness :
  srv_counting [] (current_request "London" "metric")
    = Ok (Requests.mkResponse 200 (Some (Requests.JObj {[ "dt" := Requests.JNum 0 ]}))) /\
  srv_counting ([] ++ [current_request "London" "metric"]) (forecast_request "London" "metric")
    = Ok (Requests.mkResponse 200 (Some (Requests.JObj {[ "dt" := Requests.JNum 1 ]}))).
Proof.
  apply (get_weather_data_success srv_counting "London" "metric" []). reflexivity.
Defined.

(** An exception of [get_weather_data] is either that of a request that
    got no response (the first such request, the forecast request being
    issued before any status is looked at), or [JSONDecodeError] for a
    body the function reads that is not JSON, or [AttributeError] for the
    body of a response with a status other than 200 that is JSON but not an
    object; the body read is that of the current-weather response unless
    its status is 200. *)
Theorem get_weather_data_raises
    (srv : Requests.server) (city unit : string) (log : list Requests.request) (e : exn) :
  (get_weather_data srv city unit log).1 = Raise e ->
  srv log (current_request city unit) = Raise e \/
  exists cur : Requests.Response,
    srv log (current_request city unit) = Ok cur /\
    (srv (log ++ [current_request city unit]) (forecast_request city unit) = Raise e \/
     exists fc : Requests.Response,
       srv (log ++ [current_request city unit]) (forecast_request city unit) = Ok fc /\
       let read := if decide (Requests.status_code cur ≠ 200) then cur else fc in
       (e = JSONDecodeError /\
        (Requests.content read = None \/
         (Requests.status_code cur = 200 /\ Requests.status_code fc = 200 /\
          Requests.content cur = None))) \/
       (e = AttributeError /\ Requests.status_code read ≠ 200 /\
        exists body, Requests.content read = Some body /\
                     forall fields, body <> Requests.JObj fields)).
Proof.
  intros Hd.
  destruct (srv log (current_request city unit)) as [cur|e'] eqn:Hcur.
  2:{ rewrite (get_weather_data_no_current_response srv city unit log e' Hcur) in Hd.
      left. simpl in Hd. congruence. }
  right. exists cur. split; [reflexivity|].
  destruct (srv (log ++ [current_request city unit]) (forecast_request city unit))
    as [fc|e'] eqn:Hfc.
  2:{ rewrite (get_weather_data_no_forecast_response srv city unit log cur e' Hcur Hfc) in Hd.
      left. simpl in Hd. congruence. }
  right. exists fc. split; [reflexivity|].
  rewrite (get_weather_data_responses srv city unit log cur fc Hcur Hfc) in Hd.
  cbn [fst] in Hd. cbv zeta.
  assert (Herr : forall (r : Requests.Response) (fallback : Requests.json),
            Requests.status_code r ≠ 200 ->
            (body ← Requests.json_of r;
             message ← Requests.dict_get body "message" fallback;
             Ok ({[ "error" := message ]} : gmap string Requests.json)) = Raise e ->
            (e = JSONDecodeError /\ Requests.content r = None) \/
            (e = AttributeError /\ Requests.status_code r ≠ 200 /\
             exists body, Requests.content r = Some body /\
                          forall fields, body <> Requests.JObj fields)).
  { intros r fallback Hstatus Hraise. unfold Requests.json_of in Hraise.
    destruct (Requests.content r) as [body|]; simpl in Hraise;
      [|left; split; congruence].
    right. destruct body; simpl in Hraise; try discriminate;
      injection Hraise as <-; (split; [reflexivity|]); (split; [exact Hstatus|]);
      eexists; (split; [reflexivity|]); intros fields; discriminate. }
  destruct (decide (Requests.status_code cur ≠ 200)) as [Hc|Hc];
    [|destruct (decide (Requests.status_code fc ≠ 200)) as [Hf|Hf]].
  - destruct (Herr cur _ Hc Hd) as [(-> & Hnone) | Hattr]; [left | right]; auto.
  - destruct (Herr fc _ Hf Hd) as [(-> & Hnone) | Hattr]; [left | right]; auto.
  - left. apply dec_stable in Hc. apply dec_stable in Hf.
    unfold Requests.json_of in Hd.
    destruct (Requests.content cur) as [c|]; simpl in Hd.
    + destruct (Requests.content fc) as [f|]; simpl in Hd; [discriminate|].
      split; [congruence | left; reflexivity].
    + split; [congruence | right; auto].
Qed.

Lemma get_weather_data_raises_witness :
  srv_bad_gateway [] (current_request "London" "metric") = Raise JSONDecodeError \/
  exists cur : Requests.Response,
    srv_bad_gateway [] (current_request "London" "metric") = Ok cur /\
    (srv_bad_gateway ([] ++ [current_request "London" "metric"])
       (forecast_request "London" "metric") = Raise JSONDecodeError \/
     exists fc : Requests.Response,
       srv_bad_gateway ([] ++ [current_request "London" "metric"])
         (forecast_request "London" "metric") = Ok fc /\
       let read := if decide (Requests.status_code cur ≠ 200) then cur else fc in
       (JSONDecodeError = JSONDecodeError /\
        (Requests.content read = None \/
         (Requests.status_code cur = 200 /\ Requests.status_code fc = 200 /\
          Requests.content cur = None))) \/
       (JSONDecodeError = AttributeError /\ Requests.status_code read ≠ 200 /\
        exists body, Requests.content read = Some body /\
                     forall fields, body <> Requests.JObj fields)).
Proof.
  apply (get_weather_data_raises srv_bad_gateway "London" "metric" [] JSONDecodeError).
  reflexivity.
Defined.

(** Each call issues the current-weather request and then, whenever
    that request got a response (whatever its status), the forecast
    request; both go to the fixed endpoints with the same parameters: the
    place under 'q', the unit system under 'units' and the key under
    'appid'. *)
Theorem get_weather_data_requests
    (srv : Requests.server) (city unit : string) (log : list Requests.request) :
  ((exists cur, srv log (current_request city unit) = Ok cur) ->
   (get_weather_data srv city unit log).2
   = log ++ [current_request city unit; forecast_request city unit]) /\
  ((exists e, srv log (current_request city unit) = Raise e) ->
   (get_weather_data srv city unit log).2 = log ++ [current_request city unit]) /\
  Requests.url (current_request city unit) = "http://api.openweathermap.org/data/2.5/weather" /\
  Requests.url (forecast_request city unit) = "http://api.openweathermap.org/data/2.5/forecast" /\
  Requests.params (current_request city unit) = Requests.params (forecast_request city unit) /\
  Requests.params (current_request city unit) !! "q" = Some city /\
  Requests.params (current_request city unit) !! "units" = Some unit /\
  Requests.params (current_request city unit) !! "appid" = Some API_KEY /\
  dom (Requests.params (current_request city unit)) = ({[ "q"; "units"; "appid" ]} : gset string).
Proof.
  split; [|split].
  - intros (cur & Hcur).
    destruct (srv (log ++ [current_request city unit]) (forecast_request city unit))
      as [fc|e] eqn:Hfc.
    + rewrite (get_weather_data_responses srv city unit log cur fc Hcur Hfc). reflexivity.
    + rewrite (get_weather_data_no_forecast_response srv city unit log cur e Hcur Hfc).
      reflexivity.
  - intros (e & Hcur).
    rewrite (get_weather_data_no_current_response srv city unit log e Hcur). reflexivity.
  - unfold current_request, forecast_request, request_params. cbn [Requests.url Requests.params].
    split; [reflexivity|]. split; [reflexivity|]. split; [reflexivity|].
    split; [|split; [|split]].
    + apply lookup_insert_eq.
    + rewrite !lookup_insert_ne by discriminate. apply lookup_singleton_eq.
    + rewrite lookup_insert_ne by discriminate. apply lookup_insert_eq.
    + rewrite !dom_insert_L, dom_singleton_L. set_solver.
Qed.

Lemma get_weather_data_requests_witness :
  (get_weather_data srv_not_found "InvalidPlaceXYZ123" "metric" []).2
  = [] ++ [current_request "InvalidPlaceXYZ123" "metric";
           forecast_request "InvalidPlaceXYZ123" "metric"].
Proof.
  apply (get_weather_data_requests srv_not_found "InvalidPlaceXYZ123" "metric" []).
  eexists. reflexivity.
Defined.

(** ** The cache: expiry, exceptions, other pairs, what it holds *)

Section cache_store_facts.

Context {K V : Type} `{Countable K}.
Variable ttl : Z.
Variable f : K -> Requests.IO V.

(** A call without a young entry runs the function: its result and its
    log are those of the run; a value returned is stored under the time
    of the call, an exception leaves no entry. *)
Lemma cache_data_miss (now : Z) (k : K) (st : gmap K (Z * V) * list Requests.request) :
  (forall stored v0, st.1 !! k = Some (stored, v0) -> stored + ttl <= now) ->
  (St.cache_data ttl f now k st).1 = (f k st.2).1 /\
  (St.cache_data ttl f now k st).2.2 = (f k st.2).2 /\
  (St.cache_data ttl f now k st).2.1
  = match (f k st.2).1 with
    | Ok v => <[k := (now, v)]> st.1
    | Raise _ => delete k st.1
    end.
Proof.
  intros Hold. unfold St.cache_data.
  assert (Hrun : forall r,
             r = match f k st.2 with
                 | (Ok v', log') => (Ok v', (<[k := (now, v')]> st.1, log'))
                 | (Raise e, log') => (Raise e, (delete k st.1, log'))
                 end ->
             r.1 = (f k st.2).1 /\ r.2.2 = (f k st.2).2 /\
             r.2.1 = match (f k st.2).1 with
                     | Ok v => <[k := (now, v)]> st.1
                     | Raise _ => delete k st.1
                     end).
  { intros r ->. destruct (f k st.2) as [[v'|e] log']; auto. }
  destruct (st.1 !! k) as [[stored v0]|] eqn:Hentry; [|apply Hrun; reflexivity].
  specialize (Hold stored v0 eq_refl).
  destruct (Z.ltb_spec now (stored + ttl)); [lia | apply Hrun; reflexivity].
Qed.

(** The store after a call: as before, or with the value the function
    returned stored under the time of the call, or with the entry of the
    call's arguments removed. *)
Lemma cache_data_store (now : Z) (k : K) (st : gmap K (Z * V) * list Requests.request) :
  (St.cache_data ttl f now k st).2.1 = st.1 \/
  (exists v, (f k st.2).1 = Ok v /\ (St.cache_data ttl f now k st).2.1 = <[k := (now, v)]> st.1) \/
  (St.cache_data ttl f now k st).2.1 = delete k st.1.
Proof.
  unfold St.cache_data.
  assert (Hrun : forall r,
             r = match f k st.2 with
                 | (Ok v', log') => (Ok v', (<[k := (now, v')]> st.1, log'))
                 | (Raise e, log') => (Raise e, (delete k st.1, log'))
                 end ->
             r.2.1 = st.1 \/
             (exists v, (f k st.2).1 = Ok v /\ r.2.1 = <[k := (now, v)]> st.1) \/
             r.2.1 = delete k st.1).
  { intros r ->. destruct (f k st.2) as [[v'|e] log']; simpl; eauto. }
  destruct (st.1 !! k) as [[stored v0]|]; [|apply Hrun; reflexivity].
  destruct (now <? stored + ttl); [left; reflexivity | apply Hrun; reflexivity].
Qed.

End cache_store_facts.

Lemma get_weather_data_log_grows (srv : Requests.server) (city unit : string)
    (log : list Requests.request) :
  (length log < length (get_weather_data srv city unit log).2)%nat.
Proof.
  destruct (srv log (current_request city unit)) as [cur|e] eqn:Hcur.
  - destruct (srv (log ++ [current_request city unit]) (forecast_request city unit))
      as [fc|e] eqn:Hfc.
    + rewrite (get_weather_data_responses srv city unit log cur fc Hcur Hfc).
      cbn [snd]. rewrite length_app. simpl. lia.
    + rewrite (get_weather_data_no_forecast_response srv city unit log cur e Hcur Hfc).
      cbn [snd]. rewrite length_app. simpl. lia.
  - rewrite (get_weather_data_no_current_response srv city unit log e Hcur).
    cbn [snd]. rewrite length_app. simpl. lia.
Qed.

(** A result is never served 600 seconds or more after it was stored:
    a call for a pair whose entry is that old, or that has no entry, runs
    [get_weather_data] anew, issues requests, and returns what this run
    returns; a dict returned is stored under the time of the call, and
    after an exception nothing is stored for the pair, so that the next
    call tries again. *)
Theorem cached_call_refetches
    (srv : Requests.server) (now : Z) (city unit : string)
    (st : gmap (string * string) (Z * gmap string Requests.json) * list Requests.request) :
  (forall stored v0, st.1 !! (city, unit) = Some (stored, v0) -> stored + 600 <= now) ->
  (cached_get_weather_data srv now city unit st).1 = (get_weather_data srv city unit st.2).1 /\
  (cached_get_weather_data srv now city unit st).2.2 = (get_weather_data srv city unit st.2).2 /\
  (length st.2 < length (cached_get_weather_data srv now city unit st).2.2)%nat /\
  (forall v, (get_weather_data srv city unit st.2).1 = Ok v ->
     (cached_get_weather_data srv now city unit st).2.1 !! (city, unit) = Some (now, v)) /\
  (forall e, (get_weather_data srv city unit st.2).1 = Raise e ->
     (cached_get_weather_data srv now city unit st).2.1 !! (city, unit) = None).
Proof.
  intros Hold. unfold cached_get_weather_data.
  destruct (cache_data_miss 600 (fun k => get_weather_data srv k.1 k.2) now (city, unit) st Hold)
    as (Hres & Hlog & Hstore).
  cbn [fst snd] in Hres, Hlog, Hstore.
  split; [exact Hres|]. split; [exact Hlog|]. split; [|split].
  - rewrite Hlog. apply get_weather_data_log_grows.
  - intros v Hv. rewrite Hstore, Hv. apply lookup_insert_eq.
  - intros e He. rewrite Hstore, He. apply lookup_delete_eq.
Qed.

Lemma cached_call_refetches_witness :
  let s0 := (cached_get_weather_data srv_counting 0 "London" "metric" fresh).2 in
  (cached_get_weather_data srv_counting 600 "London" "metric" s0).1
  = (get_weather_data srv_counting "London" "metric" s0.2).1 /\
  (length s0.2 < length (cached_get_weather_data srv_counting 600 "London" "metric" s0).2.2)%nat.
Proof.
  cbv zeta.
  destruct (cached_call_refetches srv_counting 600 "London" "metric"
              (cached_get_weather_data srv_counting 0 "London" "metric" fresh).2)
    as (Hres & _ & Hlen & _).
  - intros stored v0 Hentry. vm_compute in Hentry. injection Hentry as <- _. lia.
  - split; [exact Hres | exact Hlen].
Defined.

(** Calls for other pairs leave the entry of a pair alone: after any run
    of calls none of which is for (place, unit system), what the cache
    holds for that pair is what it held before (nothing is evicted to make
    room). *)
Theorem cached_calls_for_other_pairs
    (srv : Requests.server) (city unit : string) (calls : list (Z * (string * string)))
    (st : gmap (string * string) (Z * gmap string Requests.json) * list Requests.request) :
  Forall (fun c => c.2 <> (city, unit)) calls ->
  (run_calls srv calls st).1 !! (city, unit) = st.1 !! (city, unit).
Proof.
  intros Hcalls. revert st.
  induction Hcalls as [|[now [city' unit']] calls Hne _ IH]; intros st; [reflexivity|].
  simpl. rewrite IH. unfold cached_get_weather_data.
  apply cache_data_other_key. exact Hne.
Qed.

Lemma cached_calls_for_other_pairs_witness :
  let s0 := (cached_get_weather_data srv_counting 0 "London" "metric" fresh).2 in
  (run_calls srv_counting [(100, ("Paris", "metric")); (900, ("London", "imperial"))] s0).1
    !! ("London", "metric")
  = s0.1 !! ("London", "metric").
Proof.
  cbv zeta.
  apply (cached_calls_for_other_pairs srv_counting "London" "metric").
  repeat constructor; simpl; discriminate.
Defined.

Section reachable_facts.

Variable srv : Requests.server.

Lemma get_weather_data_dict (city unit : string) (log : list Requests.request)
    (d : gmap string Requests.json) :
  (get_weather_data srv city unit log).1 = Ok d -> error_dict d \/ weather_dict d.
Proof.
  intros Hd. apply get_weather_data_Ok in Hd as (cur & fc & _ & _ & Hshape).
  unfold error_dict, weather_dict.
  destruct Hshape as [(m & -> & _) | (_ & _ & c & f & _ & _ & ->)].
  - left. rewrite lookup_singleton_eq, !lookup_singleton_ne by discriminate. eauto.
  - right. rewrite lookup_insert_ne, lookup_singleton_ne by discriminate.
    rewrite lookup_insert_eq, lookup_insert_ne, lookup_singleton_eq by discriminate. eauto.
Qed.

Lemma entries_from_call (done : list (Z * (string * string))) (now : Z) (city unit : string)
    (st : gmap (string * string) (Z * gmap string Requests.json) * list Requests.request) :
  entries_from done st ->
  entries_from ((now, (city, unit)) :: done) (cached_get_weather_data srv now city unit st).2.
Proof.
  intros Hinv k stored v Hentry. unfold cached_get_weather_data in Hentry.
  destruct (cache_data_store 600 (fun k => get_weather_data srv k.1 k.2) now (city, unit) st)
    as [Hsame | [(d & Hd & Hins) | Hdel]].
  - rewrite Hsame in Hentry. destruct (Hinv k stored v Hentry) as (Hin & Hshape).
    split; [right; exact Hin | exact Hshape].
  - rewrite Hins in Hentry. destruct (decide ((city, unit) = k)) as [<-|Hne].
    + rewrite lookup_insert_eq in Hentry. injection Hentry as <- <-.
      split; [left | eapply get_weather_data_dict, Hd].
    + rewrite lookup_insert_ne in Hentry by exact Hne.
      destruct (Hinv k stored v Hentry) as (Hin & Hshape).
      split; [right; exact Hin | exact Hshape].
  - rewrite Hdel in Hentry. destruct (decide ((city, unit) = k)) as [<-|Hne].
    + rewrite lookup_delete_eq in Hentry. discriminate.
    + rewrite lookup_delete_ne in Hentry by exact Hne.
      destruct (Hinv k stored v Hentry) as (Hin & Hshape).
      split; [right; exact Hin | exact Hshape].
Qed.

Lemma entries_from_run (calls done : list (Z * (string * string)))
    (st : gmap (string * string) (Z * gmap string Requests.json) * list Requests.request) :
  entries_from done st -> entries_from (reverse calls ++ done) (run_calls srv calls st).
Proof.
  revert done st. induction calls as [|[now [city unit]] calls IH]; intros done st Hinv.
  - exact Hinv.
  - simpl. rewrite reverse_cons, <- app_assoc. apply IH, entries_from_call, Hinv.
Qed.

Lemma run_calls_log (calls : list (Z * (string * string)))
    (st : gmap (string * string) (Z * gmap string Requests.json) * list Requests.request) :
  (length (run_calls srv calls st).2 <= length st.2 + 2 * length calls)%nat.
Proof.
  revert st. induction calls as [|[now [city unit]] calls IH]; intros st; simpl; [lia|].
  etransitivity; [apply IH|].
  assert (Hstep : (length (cached_get_weather_data srv now city unit st).2.2
                   <= length st.2 + 2)%nat).
  { unfold cached_get_weather_data.
    destruct (cache_data_log 600 (fun k => get_weather_data srv k.1 k.2) now (city, unit) st)
      as [Hlog | Hlog]; rewrite Hlog; [lia|]. cbn [fst snd].
    destruct (get_weather_data_log srv city unit st.2) as (reqs & Hreqs & Hlen).
    rewrite Hreqs, length_app. lia. }
  lia.
Qed.

End reachable_facts.

(** Starting with an empty cache, any run of n calls issues at most 2n
    requests, whether the calls return or raise; and every entry of the
    cache after the run was stored by one of these calls, at its clock
    reading and under its pair, and holds a dict of one of the two forms
    [get_weather_data] returns (an error result is cached like weather
    data). *)
Theorem cache_after_calls
    (srv : Requests.server) (calls : list (Z * (string * string))) :
  (length (run_calls srv calls fresh).2 <= 2 * length calls)%nat /\
  (forall (k : string * string) (stored : Z) (v : gmap string Requests.json),
      (run_calls srv calls fresh).1 !! k = Some (stored, v) ->
      (stored, k) ∈ calls /\ (error_dict v \/ weather_dict v)).
Proof.
  split.
  - pose proof (run_calls_log srv calls fresh) as Hlog. simpl in Hlog. lia.
  - intros k stored v Hentry.
    assert (Hinv : entries_from (reverse calls ++ []) (run_calls srv calls fresh)).
    { apply entries_from_run. intros k' stored' v' Hempty. simpl in Hempty.
      rewrite lookup_empty in Hempty. discriminate. }
    destruct (Hinv k stored v Hentry) as (Hin & Hshape).
    rewrite app_nil_r, elem_of_reverse in Hin. auto.
Qed.

Lemma cache_after_calls_witness :
  let calls := [(0, ("Atlantis", "metric")); (10, ("Atlantis", "metric"))] in
  (length (run_calls srv_bad_gateway calls fresh).2 <= 4)%nat /\
  exists v : gmap string Requests.json,
    (run_calls srv_not_found calls fresh).1 !! ("Atlantis", "metric") = Some (0, v) /\
    error_dict v.
Proof.
  intros calls. split.
  - apply (cache_after_calls srv_bad_gateway calls).
  - eexists. split; [reflexivity|].
    destruct (cache_after_calls srv_not_found calls) as (_ & Hentries).
    edestruct (Hentries ("Atlantis", "metric") 0) as (_ & Hshape); [reflexivity|].
    destruct Hshape as [Herr | (Hnone & _)]; [exact Herr|].
    vm_compute in Hnone. discriminate.
Defined.

(** ** The icon address and the inputs of the page *)

Section string_facts.

Lemma append_length (a b : string) :
  String.length (a +:+ b) = (String.length a + String.length b)%nat.
Proof. induction a as [|c a IH]; simpl; [reflexivity | rewrite IH; reflexivity]. Qed.

Lemma append_inj_r (a b s : string) : a +:+ s = b +:+ s -> a = b.
Proof.
  revert b. induction a as [|c a IH]; intros [|c' b] Heq; simpl in Heq.
  - reflexivity.
  - apply (f_equal String.length) in Heq. rewrite ?append_length in Heq.
    simpl in Heq. rewrite ?append_length in Heq. lia.
  - apply (f_equal String.length) in Heq. rewrite ?append_length in Heq.
    simpl in Heq. rewrite ?append_length in Heq. lia.
  - injection Heq as -> Heq. rewrite (IH b Heq). reflexivity.
Qed.

Lemma lstrip_blank (s : string) : PyStr.lstrip s = EmptyString <-> blank s = true.
Proof.
  induction s as [|c s IH]; simpl; [tauto|].
  destruct (PyStr.is_space c); simpl; [exact IH|]. split; discriminate.
Qed.

Lemma lstrip_first (s : string) (c : ascii) :
  first_char (PyStr.lstrip s) = Some c -> PyStr.is_space c = false.
Proof.
  induction s as [|c' s IH]; simpl; [discriminate|].
  destruct (PyStr.is_space c') eqn:Hc'; [exact IH|].
  simpl. intros [= <-]. exact Hc'.
Qed.

Lemma rstrip_blank (s : string) : PyStr.rstrip s = EmptyString <-> blank s = true.
Proof.
  induction s as [|c s IH]; simpl; [tauto|].
  destruct (PyStr.rstrip s) as [|c' s'].
  - destruct (PyStr.is_space c); simpl.
    + split; [intros _; apply IH; reflexivity | reflexivity].
    + split; discriminate.
  - split; [discriminate|]. intros Hb. apply andb_true_iff in Hb as [_ Hb].
    apply IH in Hb. discriminate.
Qed.

Lemma rstrip_first (s : string) :
  PyStr.rstrip s = EmptyString \/ first_char (PyStr.rstrip s) = first_char s.
Proof.
  destruct s as [|c s]; simpl; [left; reflexivity|].
  destruct (PyStr.rstrip s); [destruct (PyStr.is_space c)|]; auto.
Qed.

Lemma rstrip_last (s : string) (c : ascii) :
  last_char (PyStr.rstrip s) = Some c -> PyStr.is_space c = false.
Proof.
  induction s as [|c' s IH]; simpl; [discriminate|].
  destruct (PyStr.rstrip s) as [|c'' s''].
  - destruct (PyStr.is_space c') eqn:Hc'; simpl; [discriminate|].
    intros [= <-]. exact Hc'.
  - intros Hlast. apply IH. exact Hlast.
Qed.

Lemma strip_blank (s : string) : PyStr.strip s = EmptyString <-> blank s = true.
Proof.
  unfold PyStr.strip. rewrite rstrip_blank, <- (lstrip_blank s).
  destruct (PyStr.lstrip s) as [|c s'] eqn:Hl; [simpl; tauto|].
  assert (Hc : PyStr.is_space c = false) by (apply (lstrip_first s); rewrite Hl; reflexivity).
  simpl. rewrite Hc. simpl. split; discriminate.
Qed.

Lemma lstrip_append_blank (a s : string) :
  blank a = true -> PyStr.lstrip (a +:+ s) = PyStr.lstrip s.
Proof.
  induction a as [|c a IH]; simpl; [reflexivity|].
  intros Hb. apply andb_true_iff in Hb as [-> Hb]. apply IH, Hb.
Qed.

Lemma rstrip_append_blank (s b : string) :
  blank b = true -> PyStr.rstrip (s +:+ b) = PyStr.rstrip s.
Proof.
  intros Hb. induction s as [|c s IH]; simpl.
  - apply rstrip_blank, Hb.
  - rewrite IH. reflexivity.
Qed.

Lemma lstrip_append_r (s b : string) :
  PyStr.lstrip s <> EmptyString -> PyStr.lstrip (s +:+ b) = PyStr.lstrip s +:+ b.
Proof.
  induction s as [|c s IH]; simpl; [contradiction|].
  destruct (PyStr.is_space c); [exact IH | reflexivity].
Qed.

Lemma strip_padded (a s b : string) :
  blank a = true -> blank b = true -> PyStr.strip (a +:+ s +:+ b) = PyStr.strip s.
Proof.
  intros Ha Hb. unfold PyStr.strip. rewrite (lstrip_append_blank a _ Ha).
  destruct (PyStr.lstrip s) as [|c s'] eqn:Hl.
  - apply lstrip_blank in Hl.
    assert (Hall : blank (s +:+ b) = true).
    { clear -Hl Hb. induction s as [|c s IH]; simpl in *; [exact Hb|].
      apply andb_true_iff in Hl as [-> Hl]. apply IH, Hl. }
    apply lstrip_blank in Hall. rewrite Hall. reflexivity.
  - rewrite lstrip_append_r by (rewrite Hl; discriminate).
    rewrite Hl. apply rstrip_append_blank, Hb.
Qed.

End string_facts.

(** Different icon identifiers give different addresses, and every
    address is the identifier between the fixed image path and the
    '@2x.png' suffix. *)
Theorem get_weather_icon_url_inj (icon_code icon_code' : string) :
  get_weather_icon_url icon_code = get_weather_icon_url icon_code' <->
  icon_code = icon_code'.
Proof.
  split; [|intros ->; reflexivity].
  unfold get_weather_icon_url. intros Heq.
  apply (String.app_inj "http://openweathermap.org/img/wn/") in Heq.
  apply append_inj_r in Heq. exact Heq.
Qed.

Lemma get_weather_icon_url_inj_witness : "10d" = "10d".
Proof.
  apply (get_weather_icon_url_inj "10d" "10d"). reflexivity.
Defined.

(** The page calls [get_weather_data] only after the button was pressed
    on a place name that is not blank: without the press, or for a name of
    whitespace only, the script reaches no fetch, issues no request and
    leaves the cache as it is. *)
Theorem page_fetch_gate
    (srv : Requests.server) (now : Z) (text_input : string) (unit_option : unit_choice)
    (button : bool)
    (st : gmap (string * string) (Z * gmap string Requests.json) * list Requests.request) :
  ((page_fetch srv now text_input unit_option button st).1 = None <->
   (button = false \/ blank text_input = true)) /\
  (button = false \/ blank text_input = true ->
   page_fetch srv now text_input unit_option button st = (None, st)).
Proof.
  unfold page_fetch, city_name.
  destruct button; simpl.
  - destruct (PyStr.strip text_input) as [|c s] eqn:Hstrip; simpl.
    + apply strip_blank in Hstrip. split; [split; auto | reflexivity].
    + assert (Hnb : blank text_input <> true).
      { intros Hb. apply strip_blank in Hb. congruence. }
      split; [split; [discriminate | intros [Hf | Hb]; [discriminate | contradiction]]|].
      intros [Hf | Hb]; [discriminate | contradiction].
  - split; [split; auto | reflexivity].
Qed.

Lemma page_fetch_gate_witness :
  page_fetch srv_counting 0 "   " Celsius true fresh = (None, fresh).
Proof.
  apply (page_fetch_gate srv_counting 0 "   " Celsius true fresh). right. reflexivity.
Defined.

(** When the page does fetch, it calls the cached [get_weather_data]
    with the stripped place name, which is not empty and neither starts
    nor ends with whitespace, and with 'metric' for Celsius (symbol '°C')
    or 'imperial' for Fahrenheit (symbol '°F'). *)
Theorem page_fetch_call
    (srv : Requests.server) (now : Z) (text_input : string) (unit_option : unit_choice)
    (button : bool)
    (st st' : gmap (string * string) (Z * gmap string Requests.json) * list Requests.request)
    (r : result (gmap string Requests.json)) :
  page_fetch srv now text_input unit_option button st = (Some r, st') ->
  (r, st') = cached_get_weather_data srv now (city_name text_input) (unit_param unit_option) st /\
  city_name text_input <> EmptyString /\
  (forall c, first_char (city_name text_input) = Some c -> PyStr.is_space c = false) /\
  (forall c, last_char (city_name text_input) = Some c -> PyStr.is_space c = false) /\
  ((unit_option = Celsius /\ unit_param unit_option = "metric" /\
    unit_symbol unit_option = "°C") \/
   (unit_option = Fahrenheit /\ unit_param unit_option = "imperial" /\
    unit_symbol unit_option = "°F")).
Proof.
  unfold page_fetch. intros Hfetch.
  destruct (button && PyStr.truthy (city_name text_input)) eqn:Hgate; [|discriminate].
  apply andb_true_iff in Hgate as [_ Htruthy].
  injection Hfetch as <- <-.
  split; [symmetry; apply surjective_pairing|]. split; [|split; [|split]].
  - intros Hempty. rewrite Hempty in Htruthy. discriminate.
  - unfold city_name, PyStr.strip. intros c Hc.
    destruct (rstrip_first (PyStr.lstrip text_input)) as [Hempty | Hfirst].
    + rewrite Hempty in Hc. discriminate.
    + rewrite Hfirst in Hc. eapply lstrip_first, Hc.
  - unfold city_name, PyStr.strip. intros c Hc. eapply rstrip_last, Hc.
  - destruct unit_option; [left | right]; auto.
Qed.

Lemma page_fetch_call_witness :
  let call := page_fetch srv_counting 0 "  New York " Fahrenheit true fresh in
  (call.1 = Some (cached_get_weather_data srv_counting 0 "New York" "imperial" fresh).1) /\
  city_name "  New York " <> EmptyString.
Proof.
  cbv zeta.
  destruct (page_fetch srv_counting 0 "  New York " Fahrenheit true fresh) as [[r|] s1] eqn:Hcall;
    [|vm_compute in Hcall; discriminate].
  destruct (page_fetch_call srv_counting 0 "  New York " Fahrenheit true fresh s1 r Hcall)
    as (Hsame & Hne & _).
  split; [|exact Hne].
  change (city_name "  New York ") with "New York" in Hsame.
  change (unit_param Fahrenheit) with "imperial" in Hsame.
  rewrite <- Hsame. reflexivity.
Defined.

(** Whitespace around the place name changes nothing: the page does
    with the padded text exactly what it does with the text itself (the
    same call, hence the same cache entry and the same requests). *)
Theorem page_fetch_padding
    (srv : Requests.server) (now : Z) (text_input before after : string)
    (unit_option : unit_choice) (button : bool)
    (st : gmap (string * string) (Z * gmap string Requests.json) * list Requests.request) :
  blank before = true -> blank after = true ->
  page_fetch srv now (before +:+ text_input +:+ after) unit_option button st
  = page_fetch srv now text_input unit_option button st.
Proof.
  intros Hb Ha. unfold page_fetch, city_name.
  rewrite (strip_padded before text_input after Hb Ha). reflexivity.
Qed.

Lemma page_fetch_padding_witness :
  page_fetch srv_counting 0 (" " +:+ "Tokyo" +:+ "  ") Celsius true fresh
  = page_fetch srv_counting 0 "Tokyo" Celsius true fresh.
Proof.
  apply (page_fetch_padding srv_counting 0 "Tokyo" " " "  " Celsius true fresh); reflexivity.
Defined.
